(** * heightmap-face: the capture pipeline and the heightmap renderer

    A shallow embedding of [src/App.tsx]: the [captureImage] handler of the
    [App] component (guards, detection, head-mask path, masking loop,
    height-field loop, state publication) and the vertex update effect of
    [HeightMapMesh].

    Conventions of the embedding.
    - A JavaScript Number is a [number]: a rational, an infinity or NaN.
      Arithmetic is exact: the IEEE rounding of doubles and of Float32Array
      stores is not modelled, and neither is the sign of zero.
    - A [Uint8ClampedArray] is a [list Z], a [Float32Array] a [list number].
      Reading outside a typed array gives [undefined] (here [None]) and
      writing outside it does nothing, which is what stdpp's list lookup
      and insert do.
    - The face detector, the canvas rasteriser and the PNG encoder are
      outside the repository: the detector's answer is an input of a
      capture, the other two are parameters of the development. *)

From Stdlib Require Import ZArith QArith Qround Qabs String Lia ZifyNat.
From stdpp Require Import list.

Local Open Scope nat_scope.

(** ** JavaScript numbers *)

Inductive number : Type :=
| NaN : number
| Infinity (negative : bool) : number
| Fin (q : Q) : number.

(** Equality of numbers up to the representation of the rational. *)
Definition num_eq (a b : number) : Prop :=
  match a, b with
  | NaN, NaN => True
  | Infinity s, Infinity t => s = t
  | Fin p, Fin q => (p == q)%Q
  | _, _ => False
  end.

Definition Qneg (q : Q) : bool :=
  match (q ?= 0)%Q with Lt => true | _ => false end.

Definition Qzero (q : Q) : bool :=
  match (q ?= 0)%Q with Eq => true | _ => false end.

(** [a + b] *)
Definition num_add (a b : number) : number :=
  match a, b with
  | NaN, _ | _, NaN => NaN
  | Infinity s, Infinity t => if Bool.eqb s t then Infinity s else NaN
  | Infinity s, Fin _ | Fin _, Infinity s => Infinity s
  | Fin p, Fin q => Fin (p + q)
  end.

(** [a * b] *)
Definition num_mul (a b : number) : number :=
  match a, b with
  | NaN, _ | _, NaN => NaN
  | Infinity s, Infinity t => Infinity (xorb s t)
  | Infinity s, Fin q | Fin q, Infinity s =>
      if Qzero q then NaN else Infinity (xorb s (Qneg q))
  | Fin p, Fin q => Fin (p * q)
  end.

(** [a / b] *)
Definition num_div (a b : number) : number :=
  match a, b with
  | NaN, _ | _, NaN => NaN
  | Infinity _, Infinity _ => NaN
  | Infinity s, Fin q => Infinity (xorb s (Qneg q))
  | Fin _, Infinity _ => Fin 0
  | Fin p, Fin q =>
      if Qzero q then (if Qzero p then NaN else Infinity (Qneg p))
      else Fin (p / q)
  end.

(** [isNaN(a)] *)
Definition isNaN (a : number) : bool :=
  match a with NaN => true | _ => false end.

(** Truthiness of a number: NaN and zero are falsy. *)
Definition truthy (a : number) : bool :=
  match a with
  | NaN => false
  | Infinity _ => true
  | Fin q => negb (Qzero q)
  end.

(** [v || 0] where [v] is a typed-array read, [None] being [undefined]. *)
Definition or_zero (v : option number) : number :=
  match v with
  | Some a => if truthy a then a else Fin 0
  | None => Fin 0
  end.

(** ** Typed arrays *)

(** Round to the nearest integer, ties to the even one. *)
Definition round_half_even (q : Q) : Z :=
  let f := Qfloor q in
  match (q ?= inject_Z f + (1 # 2))%Q with
  | Lt => f
  | Gt => (f + 1)%Z
  | Eq => if Z.even f then f else (f + 1)%Z
  end.

(** ECMAScript's ToUint8Clamp, the conversion of a store into a
    [Uint8ClampedArray]. *)
Definition ToUint8Clamp (a : number) : Z :=
  match a with
  | NaN => 0%Z
  | Infinity negative => if negative then 0%Z else 255%Z
  | Fin q =>
      if Qle_bool q 0 then 0%Z
      else if Qle_bool 255 q then 255%Z
      else round_half_even q
  end.

(** [arr[i]] read as an operand of arithmetic: [undefined] becomes NaN. *)
Definition byte_at (arr : list Z) (i : nat) : number :=
  match arr !! i with
  | Some b => Fin (inject_Z b)
  | None => NaN
  end.

(** [arr[i] = v] on a [Uint8ClampedArray]. *)
Definition store_byte (arr : list Z) (i : nat) (v : number) : list Z :=
  <[i := ToUint8Clamp v]> arr.

(** ** Counted loops

    [for (let i = start; i < bound; i += stride) body(i)] over a state [A].
    The bounds of the loops of the source are lengths of typed arrays,
    which do not change while the loop runs.  [fuel] bounds the number of
    iterations; [for_loop_fuel] shows that [bound - start] is always enough
    when the stride is positive, so no loop of the model stops for lack of
    fuel. *)
Fixpoint for_loop {A : Type} (fuel start bound stride : nat)
    (body : nat -> A -> A) (a : A) : A :=
  match fuel with
  | O => a
  | S fuel' =>
      if start <? bound
      then for_loop fuel' (start + stride) bound stride body (body start a)
      else a
  end.

Definition for_upto {A : Type} (bound stride : nat)
    (body : nat -> A -> A) (a : A) : A :=
  for_loop bound 0 bound stride body a.

(** ** Masking and height derivation (lines 180-202) *)

(** [faceMask[i] === 255] *)
Definition mask_is_white (faceMask : list Z) (i : nat) : bool :=
  match faceMask !! i with
  | Some b => (b =? 255)%Z
  | None => false
  end.

(** The average [(data[i] + data[i + 1] + data[i + 2]) / 3]. *)
Definition average (data : list Z) (i : nat) : number :=
  num_div
    (num_add (num_add (byte_at data i) (byte_at data (i + 1)))
             (byte_at data (i + 2)))
    (Fin 3).

(** Body of the masking loop at byte offset [i]. *)
Definition mask_pixel (faceMask : list Z) (i : nat) (data : list Z) : list Z :=
  if mask_is_white faceMask i then
    let avg := average data i in
    store_byte (store_byte (store_byte data i avg) (i + 1) avg) (i + 2) avg
  else
    store_byte (store_byte (store_byte data i (Fin 0)) (i + 1) (Fin 0))
               (i + 2) (Fin 0).

Definition apply_mask (faceMask data : list Z) : list Z :=
  for_upto (length data) 4 (mask_pixel faceMask) data.

(** Body of the height loop: [heightMapData[i / 4] = data[i] / 255]. *)
Definition height_entry (data : list Z) (i : nat) (hm : list number)
    : list number :=
  <[i / 4 := num_div (byte_at data i) (Fin 255)]> hm.

(** [new Float32Array(width * height)] filled by the height loop. *)
Definition make_heightmap (width height : nat) (data : list Z) : list number :=
  for_upto (length data) 4 (height_entry data)
           (replicate (width * height) (Fin 0)).

(** ** Detection results and the head-mask path (lines 110-171) *)

Record Point : Type := { px : Q; py : Q }.

Record Box : Type := { x : Q; y : Q; width : Q; height : Q }.

(** What [detectSingleFace(...).withFaceLandmarks()] resolves to when a face
    is found: the detection box and the landmark groups the handler reads. *)
Record FaceDetection : Type := {
  box : Box;
  jawOutline : list Point;
  leftEyeBrow : list Point;
  rightEyeBrow : list Point
}.

(** The three ways the awaited detection call can end. *)
Inductive DetectResult : Type :=
| DetectThrows : DetectResult
| DetectUndefined : DetectResult
| Detected (d : FaceDetection) : DetectResult.

(** Calls recorded on the 2D context between [beginPath] and [fill]. *)
Inductive PathCmd : Type :=
| MoveTo (x y : Q)
| QuadraticCurveTo (cpx cpy x y : Q)
| LineTo (x y : Q)
| ClosePath.

(** An expression of the [try] block either has a value or throws. *)
Inductive attempt (A : Type) : Type :=
| Value (a : A)
| Thrown.
Arguments Value {A} a.
Arguments Thrown {A}.

Definition attempt_bind {A B : Type} (m : attempt A) (k : A -> attempt B)
    : attempt B :=
  match m with
  | Value a => k a
  | Thrown => Thrown
  end.

Notation "'try!' p <- m ; k" := (attempt_bind m (fun p => k))
  (at level 10, p pattern, m at level 100, k at level 200).

Definition scaleX : Q := 14 # 10.
Definition scaleY : Q := 16 # 10.

Definition centerX (faceBox : Box) : Q := x faceBox + width faceBox / 2.
Definition centerY (faceBox : Box) : Q := y faceBox + height faceBox / 2.
Definition extendedWidth (faceBox : Box) : Q := width faceBox * scaleX.
Definition extendedHeight (faceBox : Box) : Q := height faceBox * scaleY.
Definition topY (faceBox : Box) : Q :=
  y faceBox - (extendedHeight faceBox - height faceBox).

(** [jawLine[i]] for a property access: reading [.x] of [undefined] throws. *)
Definition jaw_point (jawLine : list Point) (i : Z) : attempt Point :=
  if (i <? 0)%Z then Thrown
  else match jawLine !! Z.to_nat i with
       | Some p => Value p
       | None => Thrown
       end.

(** The loop [for (let i = jawLine.length - 2; i >= 0; i--) lineTo(...)],
    entered at [i = n - 1]: the recursion is on the number of indices left. *)
Fixpoint jaw_lines (jawLine : list Point) (n : nat) : attempt (list PathCmd) :=
  match n with
  | O => Value []
  | S i =>
      try! p <- jaw_point jawLine (Z.of_nat i);
      try! rest <- jaw_lines jawLine i;
      Value (LineTo (px p) (py p) :: rest)
  end.

(** The path built on the face canvas, in call order. *)
Definition head_path (faceBox : Box) (jawLine : list Point)
    : attempt (list PathCmd) :=
  let cx := centerX faceBox in
  let cy := centerY faceBox in
  let ew := extendedWidth faceBox in
  let eh := extendedHeight faceBox in
  let top := topY faceBox in
  let n := Z.of_nat (length jawLine) in
  let start := MoveTo (x faceBox - ew * (2 # 10)) cy in
  let left_arc :=
    QuadraticCurveTo (x faceBox - ew * (1 # 10)) (top - eh * (1 # 10))
                     cx (top - eh * (2 # 10)) in
  let right_arc :=
    QuadraticCurveTo (x faceBox + width faceBox + ew * (1 # 10))
                     (top - eh * (1 # 10))
                     (x faceBox + width faceBox + ew * (2 # 10)) cy in
  try! last_x <- jaw_point jawLine (n - 1);
  try! last_y <- jaw_point jawLine (n - 1);
  let to_jaw :=
    QuadraticCurveTo (x faceBox + width faceBox + ew * (1 # 10))
                     (y faceBox + height faceBox + eh * (1 # 10))
                     (px last_x) (py last_y) in
  try! jaw <- jaw_lines jawLine (Z.to_nat (n - 2 + 1));
  let back :=
    QuadraticCurveTo (x faceBox - ew * (1 # 10))
                     (y faceBox + height faceBox + eh * (1 # 10))
                     (x faceBox - ew * (2 # 10)) cy in
  Value ([start; left_arc; right_arc; to_jaw] ++ jaw ++ [back; ClosePath]).

(** ** Application state (lines 9-12) and the two canvases *)

Record AppState : Type := {
  imageData : option string;
  heightMap : option (list number);
  modelsLoaded : bool;
  error : option string
}.

Definition setImageData (v : option string) (s : AppState) : AppState :=
  {| imageData := v; heightMap := heightMap s;
     modelsLoaded := modelsLoaded s; error := error s |}.
Definition setHeightMap (v : option (list number)) (s : AppState) : AppState :=
  {| imageData := imageData s; heightMap := v;
     modelsLoaded := modelsLoaded s; error := error s |}.
Definition setModelsLoaded (v : bool) (s : AppState) : AppState :=
  {| imageData := imageData s; heightMap := heightMap s;
     modelsLoaded := v; error := error s |}.
Definition setError (v : option string) (s : AppState) : AppState :=
  {| imageData := imageData s; heightMap := heightMap s;
     modelsLoaded := modelsLoaded s; error := v |}.

Definition initial_state : AppState :=
  {| imageData := None; heightMap := None;
     modelsLoaded := false; error := None |}.

Definition msg_models_failed : string :=
  "Failed to load face detection models. Please check the console for details.".
Definition msg_camera_failed : string :=
  "Failed to access camera. Please ensure you have granted camera permissions.".
Definition msg_still_loading : string :=
  "Face detection models are still loading. Please wait.".
Definition msg_no_face : string :=
  "No face detected. Please ensure your face is visible in the camera.".
Definition msg_capture_error : string :=
  "An error occurred during image capture. Please check the console for details.".

(** The hidden canvas the frame is drawn to: its size and its bitmap as
    [getImageData] returns it (RGBA bytes, row after row). *)
Record Canvas : Type := {
  cv_width : nat;
  cv_height : nat;
  cv_pixels : list Z
}.

(** The hidden face canvas: its size and the paths filled in white since it
    was last cleared. *)
Record MaskCanvas : Type := {
  mc_width : nat;
  mc_height : nat;
  mc_filled : list (list PathCmd)
}.

Record World : Type := {
  app : AppState;
  canvas : Canvas;
  faceCanvas : MaskCanvas
}.

Definition with_app (f : AppState -> AppState) (w : World) : World :=
  {| app := f (app w); canvas := canvas w; faceCanvas := faceCanvas w |}.
Definition with_canvas (c : Canvas) (w : World) : World :=
  {| app := app w; canvas := c; faceCanvas := faceCanvas w |}.
Definition with_faceCanvas (m : MaskCanvas) (w : World) : World :=
  {| app := app w; canvas := canvas w; faceCanvas := m |}.

(** What one click on the capture button meets: whether the three refs are
    attached and the two 2D contexts exist, the video's size, the bytes of
    the frame that [drawImage] puts on the canvas, and the detector's
    answer for that frame. *)
Record Capture : Type := {
  refs_attached : bool;
  contexts_available : bool;
  videoWidth : nat;
  videoHeight : nat;
  videoFrame : list Z;
  detection : DetectResult
}.

(** The return points of [captureImage]. *)
Inductive Outcome : Type :=
| SilentAbort
| StillLoading
| NoFaceDetected
| CaptureProcessingError
| Published.

(** How the [try] block ends. *)
Inductive Completion : Type :=
| Completed
| Returned
| Threw.

(** ** The capture handler (lines 52-212) *)

Section CaptureImage.

(** [faceContext.getImageData(0, 0, w, h).data] of a face canvas of size
    [w] x [h] on which the given paths were filled in white. *)
Variable rasterize : nat -> nat -> list (list PathCmd) -> list Z.

(** [canvas.toDataURL()]. *)
Variable toDataURL : Canvas -> string.

(** [context.getImageData(0, 0, canvas.width, canvas.height)]: the call
    throws an IndexSizeError when the requested rectangle is empty. *)
Definition getImageData (c : Canvas) : attempt (list Z) :=
  if (cv_width c =? 0) || (cv_height c =? 0) then Thrown
  else Value (cv_pixels c).

Definition getMaskData (m : MaskCanvas) : attempt (list Z) :=
  if (mc_width m =? 0) || (mc_height m =? 0) then Thrown
  else Value (rasterize (mc_width m) (mc_height m) (mc_filled m)).

(** The [try] block.  A throwing step keeps the effects of the steps
    before it. *)
Definition capture_body (c : Capture) (w0 : World) : Completion * World :=
  (* canvas.width = ...; faceCanvas.width = ...; context.drawImage(video, 0, 0) *)
  let w1 :=
    with_faceCanvas
      {| mc_width := videoWidth c; mc_height := videoHeight c;
         mc_filled := [] |}
      (with_canvas
         {| cv_width := videoWidth c; cv_height := videoHeight c;
            cv_pixels := videoFrame c |} w0) in
  match detection c with
  | DetectThrows => (Threw, w1)
  | DetectUndefined => (Returned, with_app (setError (Some msg_no_face)) w1)
  | Detected detections =>
      (* faceContext.clearRect(...); faceContext.beginPath() *)
      let w2 :=
        with_faceCanvas
          {| mc_width := mc_width (faceCanvas w1);
             mc_height := mc_height (faceCanvas w1);
             mc_filled := [] |} w1 in
      match head_path (box detections) (jawOutline detections) with
      | Thrown => (Threw, w2)
      | Value path =>
          (* faceContext.closePath(); faceContext.fill() *)
          let w3 :=
            with_faceCanvas
              {| mc_width := mc_width (faceCanvas w2);
                 mc_height := mc_height (faceCanvas w2);
                 mc_filled := path :: mc_filled (faceCanvas w2) |} w2 in
          match getImageData (canvas w3) with
          | Thrown => (Threw, w3)
          | Value data =>
              match getMaskData (faceCanvas w3) with
              | Thrown => (Threw, w3)
              | Value faceMask =>
                  let data' := apply_mask faceMask data in
                  (* context.putImageData(imageData, 0, 0) *)
                  let w4 :=
                    with_canvas
                      {| cv_width := cv_width (canvas w3);
                         cv_height := cv_height (canvas w3);
                         cv_pixels := data' |} w3 in
                  let heightMapData :=
                    make_heightmap (cv_width (canvas w4))
                                   (cv_height (canvas w4)) data' in
                  (Completed,
                   with_app
                     (fun s =>
                        setError None
                          (setImageData (Some (toDataURL (canvas w4)))
                             (setHeightMap (Some heightMapData) s)))
                     w4)
              end
          end
      end
  end.

Definition captureImage (c : Capture) (w : World) : Outcome * World :=
  if negb (refs_attached c) then (SilentAbort, w)
  else if negb (modelsLoaded (app w)) then
    (StillLoading, with_app (setError (Some msg_still_loading)) w)
  else if negb (contexts_available c) then (SilentAbort, w)
  else
    match capture_body c w with
    | (Completed, w') => (Published, w')
    | (Returned, w') => (NoFaceDetected, w')
    | (Threw, w') =>
        (CaptureProcessingError,
         with_app (setError (Some msg_capture_error)) w')
    end.

(** ** Events of the application (the two mount effects and the button) *)

Inductive Event : Type :=
| ModelsLoaded
| ModelsFailed
| CameraFailed
| CaptureClicked (c : Capture).

Definition handle (e : Event) (w : World) : World :=
  match e with
  | ModelsLoaded => with_app (setModelsLoaded true) w
  | ModelsFailed => with_app (setError (Some msg_models_failed)) w
  | CameraFailed => with_app (setError (Some msg_camera_failed)) w
  | CaptureClicked c => snd (captureImage c w)
  end.

Definition run (events : list Event) (w : World) : World :=
  fold_left (fun w e => handle e w) events w.

(** A world the application can be in: the initial application state,
    whatever the canvases hold, followed by any sequence of events. *)
Definition reachable (w : World) : Prop :=
  exists (w0 : World) (events : list Event),
    app w0 = initial_state /\ w = run events w0.

(** The mask bytes the handler reads back from the face canvas. *)
Definition head_mask (w : World) : list Z :=
  rasterize (mc_width (faceCanvas w)) (mc_height (faceCanvas w))
            (mc_filled (faceCanvas w)).

(** When the handler gets past its three guards. *)
Definition guards_pass (c : Capture) (w : World) : Prop :=
  refs_attached c = true /\ modelsLoaded (app w) = true
  /\ contexts_available c = true.

(** The world a capture leaves behind when it runs to the end of the [try]
    block after filling [path]. *)
Definition published_world (c : Capture) (path : list PathCmd) (w : World)
    : World :=
  let fc := {| mc_width := videoWidth c; mc_height := videoHeight c;
               mc_filled := [path] |} in
  let cv := {| cv_width := videoWidth c; cv_height := videoHeight c;
               cv_pixels :=
                 apply_mask
                   (rasterize (videoWidth c) (videoHeight c) [path])
                   (videoFrame c) |} in
  {| app :=
       setError None
         (setImageData (Some (toDataURL cv))
            (setHeightMap
               (Some (make_heightmap (videoWidth c) (videoHeight c)
                                     (cv_pixels cv)))
               (app w)));
     canvas := cv;
     faceCanvas := fc |}.

End CaptureImage.

(** ** The mount effect that loads the models (lines 17-34) *)

(** The effect that loads the two models (lines 17-34), given whether each
    [loadFromUri] resolves: the landmark model is requested only after the
    detector model has loaded, the flag is set only after both have, and
    any failure sets the message instead. *)
Definition loadModels (tinyFaceDetector faceLandmark68Net : bool)
    (s : AppState) : AppState :=
  if tinyFaceDetector then
    if faceLandmark68Net then setModelsLoaded true s
    else setError (Some msg_models_failed) s
  else setError (Some msg_models_failed) s.

(** ** The handler on both sides of its awaited detection

    [captureImage] suspends once, at the awaited detection of lines 89-92.
    [capture_body] above runs it as one step, which is what happens when
    nothing else touches the canvases while the detection is pending.  The
    two definitions below are its two halves, so that the second half can
    be run on the world as it is when the detection resolves: a click
    during the wait resizes and redraws the same two canvases (lines
    77-84) and may mask the first one (line 195). *)

Section CapturePhases.

Variable rasterize : nat -> nat -> list (list PathCmd) -> list Z.
Variable toDataURL : Canvas -> string.

(** Lines 76-85: both canvases take the size of the video, which clears
    them, and the current video frame is drawn on the first. *)
Definition capture_begin (c : Capture) (w0 : World) : World :=
  with_faceCanvas
    {| mc_width := videoWidth c; mc_height := videoHeight c;
       mc_filled := [] |}
    (with_canvas
       {| cv_width := videoWidth c; cv_height := videoHeight c;
          cv_pixels := videoFrame c |} w0).

(** Lines 89-207 from the moment the detection settles, on the world [w1]
    of that moment: sizes and pixels are read from the canvases as they
    are then. *)
Definition capture_resume (c : Capture) (w1 : World) : Completion * World :=
  match detection c with
  | DetectThrows => (Threw, w1)
  | DetectUndefined => (Returned, with_app (setError (Some msg_no_face)) w1)
  | Detected detections =>
      (* faceContext.clearRect(...); faceContext.beginPath() *)
      let w2 :=
        with_faceCanvas
          {| mc_width := mc_width (faceCanvas w1);
             mc_height := mc_height (faceCanvas w1);
             mc_filled := [] |} w1 in
      match head_path (box detections) (jawOutline detections) with
      | Thrown => (Threw, w2)
      | Value path =>
          (* faceContext.closePath(); faceContext.fill() *)
          let w3 :=
            with_faceCanvas
              {| mc_width := mc_width (faceCanvas w2);
                 mc_height := mc_height (faceCanvas w2);
                 mc_filled := path :: mc_filled (faceCanvas w2) |} w2 in
          match getImageData (canvas w3) with
          | Thrown => (Threw, w3)
          | Value data =>
              match getMaskData rasterize (faceCanvas w3) with
              | Thrown => (Threw, w3)
              | Value faceMask =>
                  let data' := apply_mask faceMask data in
                  (* context.putImageData(imageData, 0, 0) *)
                  let w4 :=
                    with_canvas
                      {| cv_width := cv_width (canvas w3);
                         cv_height := cv_height (canvas w3);
                         cv_pixels := data' |} w3 in
                  let heightMapData :=
                    make_heightmap (cv_width (canvas w4))
                                   (cv_height (canvas w4)) data' in
                  (Completed,
                   with_app
                     (fun s =>
                        setError None
                          (setImageData (Some (toDataURL (canvas w4)))
                             (setHeightMap (Some heightMapData) s)))
                     w4)
              end
          end
      end
  end.

(** The second half with its return points and the [catch] of lines
    208-211. *)
Definition resumeCapture (c : Capture) (w1 : World) : Outcome * World :=
  match capture_resume c w1 with
  | (Completed, w') => (Published, w')
  | (Returned, w') => (NoFaceDetected, w')
  | (Threw, w') =>
      (CaptureProcessingError,
       with_app (setError (Some msg_capture_error)) w')
  end.

(** The world the second half leaves when it runs to the end of the [try]
    block after filling [path]. *)
Definition resumed_world (path : list PathCmd) (w1 : World) : World :=
  let fc := {| mc_width := mc_width (faceCanvas w1);
               mc_height := mc_height (faceCanvas w1);
               mc_filled := [path] |} in
  let cv := {| cv_width := cv_width (canvas w1);
               cv_height := cv_height (canvas w1);
               cv_pixels :=
                 apply_mask
                   (rasterize (mc_width (faceCanvas w1))
                              (mc_height (faceCanvas w1)) [path])
                   (cv_pixels (canvas w1)) |} in
  {| app :=
       setError None
         (setImageData (Some (toDataURL cv))
            (setHeightMap
               (Some (make_heightmap (cv_width cv) (cv_height cv)
                                     (cv_pixels cv)))
               (app w1)));
     canvas := cv;
     faceCanvas := fc |}.

End CapturePhases.

(** ** The vertex update of [HeightMapMesh] (lines 247-266) *)

(** [heightMap[y * width + x]] with [x = Math.floor((i / 3) % width)] and
    [y = Math.floor((i / 3) / width)], for [i] a multiple of 3 and [width] a
    canvas width.  With [width = 0] the index is NaN and the read gives
    [undefined]. *)
Definition height_index (width i : nat) : option nat :=
  if width =? 0 then None
  else
    let x := (i / 3) mod width in
    let y := (i / 3) / width in
    Some (y * width + x).

Definition height_lookup (heightMap : list number) (width i : nat)
    : option number :=
  match height_index width i with
  | Some k => heightMap !! k
  | None => None
  end.

(** The depth computed at offset [i] of the position array:
    [heightValue = heightMap[...] || 0], then
    [isNaN(heightValue) ? 0 : heightValue * 2]. *)
Definition vertex_depth (heightMap : list number) (width i : nat) : number :=
  let heightValue := or_zero (height_lookup heightMap width i) in
  if isNaN heightValue then Fin 0 else num_mul heightValue (Fin 2).

(** Body of the vertex loop: [vertices[i + 2] = ...]. *)
Definition update_vertex (heightMap : list number) (width : nat) (i : nat)
    (vertices : list number) : list number :=
  <[i + 2 := vertex_depth heightMap width i]> vertices.

(** The effect: nothing happens while the geometry ref is empty. *)
Definition HeightMapMesh_effect (heightMap : list number) (width : nat)
    (geometry : option (list number)) : option (list number) :=
  match geometry with
  | None => None
  | Some vertices =>
      Some (for_upto (length vertices) 3 (update_vertex heightMap width)
                     vertices)
  end.

(** ** Readings of the loops, entry by entry

    What each loop leaves at a given index, as a function of the loop's
    input.  The lemmas [apply_mask_lookup], [make_heightmap_lookup] and
    [vertex_loop_lookup] below show that the loops compute these. *)

(** The byte at offset [k] of the masked image: alpha bytes are kept,
    colour bytes become the clamped average of their pixel under the mask
    and 0 elsewhere. *)
Definition masked_byte (faceMask data : list Z) (k : nat) : option Z :=
  match data !! k with
  | None => None
  | Some b =>
      if k mod 4 =? 3 then Some b
      else Some (if mask_is_white faceMask (4 * (k / 4))
                 then ToUint8Clamp (average data (4 * (k / 4)))
                 else 0%Z)
  end.

(** The entry at pixel number [p] of the height field. *)
Definition height_of (width height : nat) (data : list Z) (p : nat)
    : option number :=
  if p <? width * height
  then Some (if 4 * p <? length data
             then num_div (byte_at data (4 * p)) (Fin 255)
             else Fin 0)
  else None.

(** The entry at offset [k] of the position array after the vertex loop:
    the third coordinate of every vertex is replaced, the other two are
    kept. *)
Definition updated_entry (heightMap : list number) (width : nat)
    (vertices : list number) (k : nat) : option number :=
  match vertices !! k with
  | None => None
  | Some old =>
      if k mod 3 =? 2 then Some (vertex_depth heightMap width (3 * (k / 3)))
      else Some old
  end.

Definition line_to (p : Point) : PathCmd := LineTo (px p) (py p).

(** Nothing is published while the models are not loaded. *)
Definition unpublished_while_loading (w : World) : Prop :=
  modelsLoaded (app w) = false ->
  heightMap (app w) = None /\ imageData (app w) = None.

(** The spacing of binary32 numbers just below 1, an upper bound of what
    rounding a height to a Float32Array entry can change. *)
Definition float32_epsilon : Q := 1 # 8388608.

(** ** Sample inputs *)

(** The face box of the 640 x 480 scenario. *)
Definition scenario_box : Box :=
  {| x := 200; y := 100; width := 240; height := 280 |}.

Definition sample_jaw : list Point :=
  [ {| px := 200; py := 240 |}; {| px := 320; py := 380 |};
    {| px := 440; py := 240 |} ].

Definition sample_detection (jaw : list Point) : FaceDetection :=
  {| box := scenario_box; jawOutline := jaw;
     leftEyeBrow := []; rightEyeBrow := [] |}.

(** A rasteriser for a frame of two pixels: the first fully covered, the
    second covered in part. *)
Definition sample_rasterize (w h : nat) (paths : list (list PathCmd))
    : list Z :=
  match paths with
  | [] => replicate (4 * w * h) 0%Z
  | _ => [255; 255; 255; 255; 128; 128; 128; 128]%Z
  end.

Definition sample_toDataURL (c : Canvas) : string := "data:image/png;base64,".

(** A frame of two pixels, (10, 20, 31) and (200, 100, 50), both opaque. *)
Definition sample_capture (found : DetectResult) : Capture :=
  {| refs_attached := true; contexts_available := true;
     videoWidth := 2; videoHeight := 1;
     videoFrame := [10; 20; 31; 255; 200; 100; 50; 255]%Z;
     detection := found |}.

Definition sample_found : DetectResult :=
  Detected (sample_detection sample_jaw).

Definition empty_canvas : Canvas :=
  {| cv_width := 0; cv_height := 0; cv_pixels := [] |}.

Definition empty_mask_canvas : MaskCanvas :=
  {| mc_width := 0; mc_height := 0; mc_filled := [] |}.

(** The application right after mounting. *)
Definition sample_loading : World :=
  {| app := initial_state; canvas := empty_canvas;
     faceCanvas := empty_mask_canvas |}.

(** The application with the models loaded, showing an earlier height
    field and the message of a failed capture. *)
Definition sample_ready : World :=
  {| app := {| imageData := Some "data:old"%string;
               heightMap := Some [Fin 1];
               modelsLoaded := true;
               error := Some msg_no_face |};
     canvas := empty_canvas;
     faceCanvas := empty_mask_canvas |}.

(** The world after a capture of the sample frame with a face found. *)
Definition sample_published : World :=
  snd (captureImage sample_rasterize sample_toDataURL
                    (sample_capture sample_found) sample_ready).

(** A height field that is one entry short of a 2 x 2 grid and holds an
    entry that is not a number, and the position array of the four vertices
    of that grid. *)
Definition sample_heights : list number :=
  [Fin (1 # 2); NaN; Fin 1].

Definition sample_vertices : list number :=
  [Fin (-5); Fin 5; Fin 0; Fin 5; Fin 5; Fin 0;
   Fin (-5); Fin (-5); Fin 0; Fin 5; Fin (-5); Fin 0].


(** A session: the models load, then the sample frame is captured. *)
Definition sample_session : World :=
  run sample_rasterize sample_toDataURL
      [ModelsLoaded; CaptureClicked (sample_capture sample_found)]
      sample_loading.

(** A later click on a video of one grey pixel, while the detection of an
    earlier click is still pending. *)
Definition sample_later_capture : Capture :=
  {| refs_attached := true; contexts_available := true;
     videoWidth := 1; videoHeight := 1;
     videoFrame := [90; 90; 90; 255]%Z;
     detection := DetectUndefined |}.

(** A mask that covers both pixels of the sample frame. *)
Definition sample_full_mask : list Z :=
  [255; 255; 255; 255; 255; 255; 255; 255]%Z.

(** * Properties *)

(** ** Counted loops end by their condition *)

(** An invariant that holds on entry and is kept by every iteration holds
    when the loop condition first fails. *)
Lemma for_loop_invariant {A : Type} (P : nat -> A -> Prop)
    (fuel start bound stride : nat) (body : nat -> A -> A) (a : A) :
  0 < stride ->
  bound - start <= fuel ->
  P start a ->
  (forall i b, i < bound -> P i b -> P (i + stride) (body i b)) ->
  exists i, bound <= i /\ P i (for_loop fuel start bound stride body a).
Proof.
  intros Hstride. revert start a.
  induction fuel as [|fuel IH]; intros start a Hfuel Hstart Hstep; simpl.
  - exists start. split; [lia | exact Hstart].
  - destruct (Nat.ltb_spec start bound) as [Hlt|Hge].
    + apply IH; [lia | auto | exact Hstep].
    + exists start. split; [lia | exact Hstart].
Qed.

(** Any two amounts of fuel of at least [bound - start] give the same
    result: the loop has already left through its condition. *)
Lemma for_loop_fuel {A : Type} (fuel1 fuel2 start bound stride : nat)
    (body : nat -> A -> A) (a : A) :
  0 < stride ->
  bound - start <= fuel1 ->
  bound - start <= fuel2 ->
  for_loop fuel1 start bound stride body a
  = for_loop fuel2 start bound stride body a.
Proof.
  intros Hstride. revert fuel2 start a.
  induction fuel1 as [|fuel1 IH]; intros fuel2 start a H1 H2.
  - destruct fuel2 as [|fuel2]; [reflexivity|]. simpl.
    destruct (Nat.ltb_spec start bound); [lia | reflexivity].
  - simpl. destruct (Nat.ltb_spec start bound) as [Hlt|Hge].
    + destruct fuel2 as [|fuel2]; [lia|]. simpl.
      destruct (Nat.ltb_spec start bound); [|lia].
      apply IH; lia.
    + destruct fuel2 as [|fuel2]; [reflexivity|]. simpl.
      destruct (Nat.ltb_spec start bound); [lia | reflexivity].
Qed.

Lemma for_upto_invariant {A : Type} (P : nat -> A -> Prop)
    (bound stride : nat) (body : nat -> A -> A) (a : A) :
  0 < stride ->
  P 0 a ->
  (forall i b, i < bound -> P i b -> P (i + stride) (body i b)) ->
  exists i, bound <= i /\ P i (for_upto bound stride body a).
Proof.
  intros. apply for_loop_invariant; auto. lia.
Qed.

(** ** Numbers and clamped bytes *)

Lemma Qzero_iff (q : Q) : Qzero q = true <-> (q == 0)%Q.
Proof.
  unfold Qzero. rewrite Qeq_alt. destruct (q ?= 0)%Q; split; congruence.
Qed.

Lemma round_half_even_bounds (q : Q) :
  (Qfloor q <= round_half_even q <= Qfloor q + 1)%Z.
Proof.
  unfold round_half_even.
  destruct (q ?= inject_Z (Qfloor q) + (1 # 2))%Q; [destruct (Z.even _)| |]; lia.
Qed.

(** A clamped store always holds a byte. *)
Lemma ToUint8Clamp_range (a : number) : (0 <= ToUint8Clamp a <= 255)%Z.
Proof.
  destruct a as [|[]|q]; simpl; try lia.
  destruct (Qle_bool q 0) eqn:Hlo; [lia|].
  destruct (Qle_bool 255 q) eqn:Hhi; [lia|].
  assert (Hpos : (0 < q)%Q).
  { apply Qnot_le_lt. intros H. apply Qle_bool_iff in H. congruence. }
  assert (Hlt : (q < 255)%Q).
  { apply Qnot_le_lt. intros H. apply Qle_bool_iff in H. congruence. }
  pose proof (round_half_even_bounds q) as [Hf Hc].
  assert (0 <= Qfloor q)%Z.
  { rewrite <- (Qfloor_Z 0). apply Qfloor_resp_le. apply Qlt_le_weak, Hpos. }
  assert (Qfloor q < 255)%Z.
  { rewrite Zlt_Qlt. eapply Qle_lt_trans; [apply Qfloor_le | exact Hlt]. }
  lia.
Qed.

Lemma ToUint8Clamp_zero : ToUint8Clamp (Fin 0) = 0%Z.
Proof. reflexivity. Qed.

(** Dividing a byte by 255 gives a rational. *)
Lemma num_div_byte (b : Z) :
  num_div (Fin (inject_Z b)) (Fin 255) = Fin (inject_Z b / 255).
Proof. reflexivity. Qed.

(** ** Typed-array stores *)

(** A store at [i] is seen at [i] if [i] is inside the array, and nowhere
    else. *)
Lemma lookup_store {A : Type} (l : list A) (i j : nat) (v : A) :
  <[i := v]> l !! j
  = if decide (i = j)
    then match l !! j with Some _ => Some v | None => None end
    else l !! j.
Proof.
  destruct (decide (i = j)) as [->|Hne].
  - destruct (l !! j) eqn:Hj.
    + apply list_lookup_insert_eq. apply lookup_lt_is_Some. eauto.
    + apply lookup_ge_None in Hj. rewrite list_insert_ge by lia.
      apply lookup_ge_None. lia.
  - apply list_lookup_insert_ne. exact Hne.
Qed.

(** ** The masked image *)

Lemma mask_pixel_length (faceMask : list Z) (i : nat) (data : list Z) :
  length (mask_pixel faceMask i data) = length data.
Proof.
  unfold mask_pixel, store_byte.
  destruct (mask_is_white faceMask i); rewrite !length_insert; reflexivity.
Qed.

Lemma average_ext (d1 d2 : list Z) (i : nat) :
  d1 !! i = d2 !! i -> d1 !! (i + 1) = d2 !! (i + 1) ->
  d1 !! (i + 2) = d2 !! (i + 2) ->
  average d1 i = average d2 i.
Proof.
  intros H0 H1 H2. unfold average, byte_at. rewrite H0, H1, H2. reflexivity.
Qed.

Lemma mask_pixel_lookup (faceMask : list Z) (i : nat) (d : list Z) (k : nat) :
  mask_pixel faceMask i d !! k
  = if (i <=? k) && (k <=? i + 2)
    then match d !! k with
         | Some _ => Some (if mask_is_white faceMask i
                           then ToUint8Clamp (average d i) else 0%Z)
         | None => None
         end
    else d !! k.
Proof.
  unfold mask_pixel, store_byte.
  destruct (mask_is_white faceMask i); rewrite ?ToUint8Clamp_zero;
    rewrite !lookup_store;
    destruct (Nat.leb_spec i k); destruct (Nat.leb_spec k (i + 2)); cbn [andb];
    repeat (destruct (decide _)); try lia; try reflexivity;
    destruct (d !! k); reflexivity.
Qed.

(** The masking loop, byte by byte. *)
Lemma apply_mask_lookup (faceMask data : list Z) (k : nat) :
  apply_mask faceMask data !! k = masked_byte faceMask data k.
Proof.
  unfold apply_mask.
  destruct (for_upto_invariant
    (fun i d => i mod 4 = 0 /\
       forall k, d !! k = if 4 * (k / 4) <? i
                          then masked_byte faceMask data k else data !! k)
    (length data) 4 (mask_pixel faceMask) data) as (i & Hi & Hmod & Hall).
  - lia.
  - split; [reflexivity|]. intros j.
    destruct (Nat.ltb_spec (4 * (j / 4)) 0); [lia | reflexivity].
  - intros i d Hlt [Hmod Hd]. split; [lia|]. intros j.
    rewrite mask_pixel_lookup.
    assert (Havg : average d i = average data i).
    { apply average_ext; rewrite Hd;
        match goal with |- context [?a <? ?b] =>
          destruct (Nat.ltb_spec a b); [lia | reflexivity] end. }
    rewrite Havg, Hd.
    destruct (Nat.leb_spec i j); destruct (Nat.leb_spec j (i + 2)); cbn [andb];
      destruct (Nat.ltb_spec (4 * (j / 4)) i);
      destruct (Nat.ltb_spec (4 * (j / 4)) (i + 4)); try lia;
      try reflexivity.
    + unfold masked_byte. destruct (data !! j); [|reflexivity].
      destruct (Nat.eqb_spec (j mod 4) 3); [lia|].
      replace (4 * (j / 4)) with i by lia. reflexivity.
    + unfold masked_byte. destruct (data !! j); [|reflexivity].
      destruct (Nat.eqb_spec (j mod 4) 3); [reflexivity | lia].
  - rewrite Hall. destruct (Nat.ltb_spec (4 * (k / 4)) i); [reflexivity|].
    unfold masked_byte.
    assert (Hnone : data !! k = None) by (apply lookup_ge_None; lia).
    rewrite Hnone. reflexivity.
Qed.

Lemma apply_mask_length (faceMask data : list Z) :
  length (apply_mask faceMask data) = length data.
Proof.
  unfold apply_mask.
  destruct (for_upto_invariant (fun _ d => length d = length data)
    (length data) 4 (mask_pixel faceMask) data) as (i & _ & H).
  - lia.
  - reflexivity.
  - intros i d _ Hd. rewrite mask_pixel_length. exact Hd.
  - exact H.
Qed.

(** ** The height field *)

Lemma make_heightmap_lookup (width height : nat) (data : list Z) (p : nat) :
  make_heightmap width height data !! p = height_of width height data p.
Proof.
  unfold make_heightmap.
  destruct (for_upto_invariant
    (fun i hm => i mod 4 = 0 /\ length hm = width * height /\
       forall p, hm !! p =
         if p <? width * height
         then Some (if (4 * p <? i) && (4 * p <? length data)
                    then num_div (byte_at data (4 * p)) (Fin 255)
                    else Fin 0)
         else None)
    (length data) 4 (height_entry data) (replicate (width * height) (Fin 0)))
    as (i & Hi & Hmod & Hlen & Hall).
  - lia.
  - split; [reflexivity|]. split; [apply length_replicate|]. intros q.
    destruct (Nat.ltb_spec q (width * height)).
    + rewrite lookup_replicate_2 by lia.
      destruct (Nat.ltb_spec (4 * q) 0); [lia | reflexivity].
    + apply lookup_replicate_None. lia.
  - intros i hm Hlt (Hmod & Hlen & Hhm). split; [lia|].
    unfold height_entry. split; [rewrite length_insert; exact Hlen|].
    intros q. rewrite lookup_store, Hhm.
    destruct (decide (i / 4 = q)) as [Heq|Hne];
      destruct (Nat.ltb_spec q (width * height)); try reflexivity;
      destruct (Nat.ltb_spec (4 * q) i);
      destruct (Nat.ltb_spec (4 * q) (i + 4));
      destruct (Nat.ltb_spec (4 * q) (length data)); cbn [andb];
      try lia; try reflexivity.
    replace (4 * q) with i by lia. reflexivity.
  - rewrite Hall. unfold height_of.
    destruct (Nat.ltb_spec p (width * height)); [|reflexivity].
    destruct (Nat.ltb_spec (4 * p) i);
      destruct (Nat.ltb_spec (4 * p) (length data)); cbn [andb];
      try lia; reflexivity.
Qed.

Lemma make_heightmap_length (width height : nat) (data : list Z) :
  length (make_heightmap width height data) = width * height.
Proof.
  unfold make_heightmap.
  destruct (for_upto_invariant (fun _ hm => length hm = width * height)
    (length data) 4 (height_entry data) (replicate (width * height) (Fin 0)))
    as (i & _ & H).
  - lia.
  - apply length_replicate.
  - intros i hm _ Hhm. unfold height_entry. rewrite length_insert. exact Hhm.
  - exact H.
Qed.


(** Rounding and clamping do not depend on how the rational is written. *)
Lemma round_half_even_comp (p q : Q) :
  (p == q)%Q -> round_half_even p = round_half_even q.
Proof.
  intros H. unfold round_half_even.
  rewrite (Qfloor_comp _ _ H).
  assert (Hc : (p ?= inject_Z (Qfloor q) + (1 # 2))%Q = (q ?= inject_Z (Qfloor q) + (1 # 2))%Q).
  { apply Qcompare_comp; [exact H | reflexivity]. }
  rewrite Hc. reflexivity.
Qed.

Lemma ToUint8Clamp_comp (p q : Q) :
  (p == q)%Q -> ToUint8Clamp (Fin p) = ToUint8Clamp (Fin q).
Proof.
  intros H. unfold ToUint8Clamp.
  rewrite (Qleb_comp _ _ H 0%Q 0%Q (Qeq_refl 0)).
  rewrite (Qleb_comp 255%Q 255%Q (Qeq_refl 255) _ _ H).
  rewrite (round_half_even_comp _ _ H). reflexivity.
Qed.

(** A number of thirds between 0 and 255 is stored as a nearest integer:
    a third is never half way between two integers. *)
Lemma clamp_thirds (s : Z) :
  (0 <= s <= 765)%Z ->
  (-1 <= 3 * ToUint8Clamp (Fin (s # 3)) - s <= 1)%Z.
Proof.
  intros Hs. unfold ToUint8Clamp.
  destruct (Qle_bool (s # 3) 0) eqn:Hlo.
  { apply Qle_bool_iff in Hlo. unfold Qle in Hlo. simpl in Hlo. lia. }
  destruct (Qle_bool 255 (s # 3)) eqn:Hhi.
  { apply Qle_bool_iff in Hhi. unfold Qle in Hhi. simpl in Hhi. lia. }
  unfold round_half_even.
  change (Qfloor (s # 3)) with (s / 3)%Z.
  destruct (Qcompare_spec (s # 3) (inject_Z (s / 3) + (1 # 2))) as [H|H|H];
    unfold Qeq, Qlt in H; simpl in H; lia.
Qed.

(** The average of three bytes that are all present. *)
Lemma average_bytes (data : list Z) (i : nat) (r g b : Z) :
  data !! i = Some r -> data !! (i + 1) = Some g -> data !! (i + 2) = Some b ->
  average data i = Fin ((inject_Z r + inject_Z g + inject_Z b) / 3).
Proof.
  intros Hr Hg Hb. unfold average, byte_at. rewrite Hr, Hg, Hb. reflexivity.
Qed.

Lemma sum_thirds (r g b : Z) :
  ((inject_Z r + inject_Z g + inject_Z b) / 3 == (r + g + b) # 3)%Q.
Proof.
  unfold Qeq, Qdiv, Qmult, Qplus, Qinv, inject_Z. simpl. lia.
Qed.

(** Storing the average of three bytes rounds it to a nearest integer. *)
Lemma clamp_average (r g b : Z) :
  (0 <= r <= 255)%Z -> (0 <= g <= 255)%Z -> (0 <= b <= 255)%Z ->
  (-1 <= 3 * ToUint8Clamp (Fin ((inject_Z r + inject_Z g + inject_Z b) / 3))
         - (r + g + b) <= 1)%Z.
Proof.
  intros Hr Hg Hb. rewrite (ToUint8Clamp_comp _ _ (sum_thirds r g b)).
  apply clamp_thirds. lia.
Qed.

(** The stored byte is the sum plus one, divided by three with integer
    division. *)
Lemma clamp_average_formula (r g b : Z) :
  (0 <= r <= 255)%Z -> (0 <= g <= 255)%Z -> (0 <= b <= 255)%Z ->
  ToUint8Clamp (Fin ((inject_Z r + inject_Z g + inject_Z b) / 3))
  = ((r + g + b + 1) / 3)%Z.
Proof.
  intros Hr Hg Hb. pose proof (clamp_average r g b Hr Hg Hb). lia.
Qed.

Lemma byte_height_range (k : Z) :
  (0 <= k <= 255)%Z -> (0 <= inject_Z k / 255 <= 1)%Q.
Proof.
  intros Hk. unfold Qle, Qdiv, Qmult, Qinv, inject_Z. simpl. lia.
Qed.
(** ** The head-mask path *)

(** An empty jaw outline has no last point to read. *)
Lemma head_path_empty (faceBox : Box) : head_path faceBox [] = Thrown.
Proof. reflexivity. Qed.

Lemma jaw_lines_defined (jawLine : list Point) (n : nat) :
  n <= length jawLine -> exists cmds, jaw_lines jawLine n = Value cmds.
Proof.
  induction n as [|n IH]; intros Hn; simpl.
  - eexists. reflexivity.
  - unfold jaw_point. destruct (Z.ltb_spec (Z.of_nat n) 0); [lia|].
    rewrite Nat2Z.id.
    destruct (lookup_lt_is_Some_2 jawLine n ltac:(lia)) as [p Hp].
    rewrite Hp. simpl. destruct IH as [cmds ->]; [lia|]. simpl.
    eexists. reflexivity.
Qed.

(** With at least one jaw point the path is built. *)
Lemma head_path_defined (faceBox : Box) (jawLine : list Point) :
  jawLine <> [] -> exists path, head_path faceBox jawLine = Value path.
Proof.
  intros Hne. unfold head_path.
  assert (Hlen : 0 < length jawLine) by (destruct jawLine; simpl; [congruence | lia]).
  unfold jaw_point.
  destruct (Z.ltb_spec (Z.of_nat (length jawLine) - 1) 0); [lia|].
  destruct (lookup_lt_is_Some_2 jawLine
              (Z.to_nat (Z.of_nat (length jawLine) - 1)) ltac:(lia)) as [p Hp].
  rewrite Hp. cbn [attempt_bind].
  destruct (jaw_lines_defined jawLine
              (Z.to_nat (Z.of_nat (length jawLine) - 2 + 1)) ltac:(lia))
    as [cmds ->].
  cbn [attempt_bind]. eexists. reflexivity.
Qed.

(** The jaw loop draws the first [n] points of the outline, last first. *)
Lemma jaw_lines_reverse (jawLine : list Point) (n : nat) :
  n <= length jawLine ->
  jaw_lines jawLine n = Value (map line_to (rev (take n jawLine))).
Proof.
  induction n as [|n IH]; intros Hn; cbn [jaw_lines].
  - reflexivity.
  - unfold jaw_point. destruct (Z.ltb_spec (Z.of_nat n) 0); [lia|].
    rewrite Nat2Z.id.
    destruct (lookup_lt_is_Some_2 jawLine n ltac:(lia)) as [p Hp].
    rewrite Hp. cbn [attempt_bind]. rewrite IH by lia. cbn [attempt_bind].
    rewrite (take_S_r _ _ _ Hp), rev_app_distr. reflexivity.
Qed.

(** The whole path for an outline with a last point: two arcs over the
    head, an arc down to the last jaw point, the jaw right to left, and an
    arc back to the start. *)
Lemma head_path_shape (faceBox : Box) (jaw : list Point) (last : Point) :
  exists start left_arc right_arc cpx cpy back,
    head_path faceBox (jaw ++ [last])
    = Value ([start; left_arc; right_arc;
              QuadraticCurveTo cpx cpy (px last) (py last)]
             ++ map line_to (rev jaw) ++ [back; ClosePath])
    /\ start = MoveTo (x faceBox - extendedWidth faceBox * (2 # 10))
                      (centerY faceBox)
    /\ left_arc
       = QuadraticCurveTo
           (x faceBox - extendedWidth faceBox * (1 # 10))
           (topY faceBox - extendedHeight faceBox * (1 # 10))
           (centerX faceBox)
           (topY faceBox - extendedHeight faceBox * (2 # 10)).
Proof.
  do 6 eexists. split; [|split; reflexivity].
  unfold head_path, jaw_point. rewrite length_app. simpl length.
  destruct (Z.ltb_spec (Z.of_nat (length jaw + 1) - 1) 0); [lia|].
  replace (Z.to_nat (Z.of_nat (length jaw + 1) - 1)) with (length jaw) by lia.
  rewrite lookup_app_r by lia. rewrite Nat.sub_diag. cbn [lookup list_lookup attempt_bind].
  replace (Z.to_nat (Z.of_nat (length jaw + 1) - 2 + 1)) with (length jaw) by lia.
  rewrite jaw_lines_reverse by (rewrite length_app; lia).
  rewrite take_app_length. cbn [attempt_bind]. reflexivity.
Qed.

(** The top of the head lies 0.92 face-box heights above the box. *)
Lemma head_top (faceBox : Box) :
  (topY faceBox - extendedHeight faceBox * (2 # 10)
   == y faceBox - (92 # 100) * height faceBox)%Q.
Proof. unfold topY, extendedHeight, scaleY. field. Qed.

Lemma head_top_above (faceBox : Box) :
  (0 < height faceBox)%Q ->
  (topY faceBox - extendedHeight faceBox * (2 # 10)
   < y faceBox - (2 # 10) * extendedHeight faceBox)%Q.
Proof.
  intros Hh. apply Qlt_minus_iff.
  assert (E : (y faceBox - (2 # 10) * extendedHeight faceBox
               + - (topY faceBox - extendedHeight faceBox * (2 # 10))
               == (6 # 10) * height faceBox)%Q).
  { unfold topY, extendedHeight, scaleY. ring. }
  rewrite E. apply Qmult_lt_0_compat; [reflexivity | exact Hh].
Qed.

(** The numbers of the 640 x 480 scenario: the enlarged box is 336 by 448,
    the top of the head is at y = -157.6, above y = 10.4. *)
Lemma scenario_envelope :
  (extendedWidth scenario_box == 336)%Q
  /\ (extendedHeight scenario_box == 448)%Q
  /\ (extendedWidth scenario_box == (14 # 10) * width scenario_box)%Q
  /\ (extendedHeight scenario_box == (16 # 10) * height scenario_box)%Q
  /\ (topY scenario_box - extendedHeight scenario_box * (2 # 10)
      == - (1576 # 10))%Q
  /\ (y scenario_box - (2 # 10) * extendedHeight scenario_box == 104 # 10)%Q.
Proof. repeat split. Qed.

(** ** The vertex loop *)

Lemma update_vertex_lookup (heightMap : list number) (width i : nat)
    (vs : list number) (k : nat) :
  update_vertex heightMap width i vs !! k
  = if decide (i + 2 = k)
    then match vs !! k with
         | Some _ => Some (vertex_depth heightMap width i)
         | None => None
         end
    else vs !! k.
Proof. unfold update_vertex. apply lookup_store. Qed.

Lemma vertex_loop_lookup (heightMap : list number) (width : nat)
    (vertices : list number) (k : nat) :
  for_upto (length vertices) 3 (update_vertex heightMap width) vertices !! k
  = updated_entry heightMap width vertices k.
Proof.
  destruct (for_upto_invariant
    (fun i vs => i mod 3 = 0 /\
       forall k, vs !! k = if 3 * (k / 3) <? i
                           then updated_entry heightMap width vertices k
                           else vertices !! k)
    (length vertices) 3 (update_vertex heightMap width) vertices)
    as (i & Hi & Hmod & Hall).
  - lia.
  - split; [reflexivity|]. intros j.
    destruct (Nat.ltb_spec (3 * (j / 3)) 0); [lia | reflexivity].
  - intros i vs Hlt [Hmod Hvs]. split; [lia|]. intros j.
    rewrite update_vertex_lookup, Hvs.
    destruct (decide (i + 2 = j)) as [Heq|Hne];
      destruct (Nat.ltb_spec (3 * (j / 3)) i);
      destruct (Nat.ltb_spec (3 * (j / 3)) (i + 3)); try lia;
      try reflexivity.
    + unfold updated_entry. destruct (vertices !! j); [|reflexivity].
      destruct (Nat.eqb_spec (j mod 3) 2); [|lia].
      replace (3 * (j / 3)) with i by lia. reflexivity.
    + unfold updated_entry. destruct (vertices !! j); [|reflexivity].
      destruct (Nat.eqb_spec (j mod 3) 2); [lia | reflexivity].
  - rewrite Hall. destruct (Nat.ltb_spec (3 * (k / 3)) i); [reflexivity|].
    unfold updated_entry.
    assert (Hnone : vertices !! k = None) by (apply lookup_ge_None; lia).
    rewrite Hnone. reflexivity.
Qed.

Lemma vertex_loop_length (heightMap : list number) (width : nat)
    (vertices : list number) :
  length (for_upto (length vertices) 3 (update_vertex heightMap width)
                   vertices)
  = length vertices.
Proof.
  destruct (for_upto_invariant (fun _ vs => length vs = length vertices)
    (length vertices) 3 (update_vertex heightMap width) vertices)
    as (i & _ & H).
  - lia.
  - reflexivity.
  - intros i vs _ Hvs. unfold update_vertex. rewrite length_insert. exact Hvs.
  - exact H.
Qed.

(** For a grid column inside the row, the index the loop computes is the
    row-major one. *)
Lemma height_index_grid (width row col : nat) :
  col < width ->
  height_index width (3 * (row * width + col)) = Some (row * width + col).
Proof.
  intros Hcol. unfold height_index.
  destruct (Nat.eqb_spec width 0); [lia|].
  replace (3 * (row * width + col) / 3) with (row * width + col) by lia.
  rewrite Nat.div_add_l by lia. rewrite (Nat.div_small col) by lia.
  rewrite (Nat.add_comm (row * width)), Nat.Div0.mod_add.
  rewrite Nat.mod_small by lia. f_equal. lia.
Qed.

(** The depth as a function of the entry read. *)
Lemma vertex_depth_cases (heightMap : list number) (width i : nat) :
  match height_lookup heightMap width i with
  | Some (Fin q) => num_eq (vertex_depth heightMap width i) (Fin (q * 2))
  | Some (Infinity s) => vertex_depth heightMap width i = Infinity s
  | Some NaN | None => vertex_depth heightMap width i = Fin 0
  end.
Proof.
  unfold vertex_depth.
  destruct (height_lookup heightMap width i) as [[|s|q]|]; simpl;
    try reflexivity.
  - destruct s; reflexivity.
  - destruct (Qzero q) eqn:Hz; simpl.
    + apply Qzero_iff in Hz. rewrite Hz. reflexivity.
    + reflexivity.
Qed.


(** ** The capture handler, outcome by outcome *)

Lemma mask_is_white_iff (faceMask : list Z) (i : nat) :
  mask_is_white faceMask i = true <-> faceMask !! i = Some 255%Z.
Proof.
  unfold mask_is_white. destruct (faceMask !! i) as [b|].
  - destruct (Z.eqb_spec b 255); split; congruence.
  - split; discriminate.
Qed.

(** The three colour bytes of pixel [p] of the masked image. *)
Lemma masked_colour (faceMask data : list Z) (p j : nat) :
  j < 3 -> 4 * p + j < length data ->
  apply_mask faceMask data !! (4 * p + j)
  = Some (if mask_is_white faceMask (4 * p)
          then ToUint8Clamp (average data (4 * p)) else 0%Z).
Proof.
  intros Hj Hlt. rewrite apply_mask_lookup. unfold masked_byte.
  destruct (lookup_lt_is_Some_2 data (4 * p + j) Hlt) as [b Hb]. rewrite Hb.
  destruct (Nat.eqb_spec ((4 * p + j) mod 4) 3); [lia|].
  replace (4 * ((4 * p + j) / 4)) with (4 * p) by lia. reflexivity.
Qed.

(** Every entry of a height field made from a masked image is a byte over
    255, whatever the frame held. *)
Lemma masked_height_entry (width height : nat) (faceMask data : list Z)
    (p : nat) (v : number) :
  make_heightmap width height (apply_mask faceMask data) !! p = Some v ->
  exists k : Z,
    (0 <= k <= 255)%Z /\ exists q, v = Fin q /\ (q == inject_Z k / 255)%Q.
Proof.
  rewrite make_heightmap_lookup. unfold height_of.
  destruct (Nat.ltb_spec p (width * height)); [|discriminate].
  rewrite apply_mask_length. intros Hv.
  destruct (Nat.ltb_spec (4 * p) (length data)) as [Hlt|Hge].
  - pose proof (masked_colour faceMask data p 0) as Hred.
    rewrite Nat.add_0_r in Hred.
    unfold byte_at in Hv. rewrite Hred in Hv by lia.
    rewrite num_div_byte in Hv.
    set (k := if mask_is_white faceMask (4 * p)
              then ToUint8Clamp (average data (4 * p)) else 0%Z) in Hv.
    exists k. split.
    + unfold k. destruct (mask_is_white faceMask (4 * p));
        [apply ToUint8Clamp_range | lia].
    + exists (inject_Z k / 255)%Q. split; [congruence | reflexivity].
  - injection Hv as <-. exists 0%Z. split; [lia|].
    exists 0%Q. split; reflexivity.
Qed.

Section CaptureProperties.

Variable rasterize : nat -> nat -> list (list PathCmd) -> list Z.
Variable toDataURL : Canvas -> string.

(** A capture publishes exactly when the guards pass, a face is detected,
    its jaw outline gives a path and the frame is not empty. *)
Lemma captureImage_published (c : Capture) (w w' : World) :
  captureImage rasterize toDataURL c w = (Published, w') <->
  exists d path,
    guards_pass c w /\ detection c = Detected d
    /\ head_path (box d) (jawOutline d) = Value path
    /\ videoWidth c <> 0 /\ videoHeight c <> 0
    /\ w' = published_world rasterize toDataURL c path w.
Proof.
  unfold captureImage, capture_body, guards_pass, getImageData, getMaskData.
  split.
  - destruct (refs_attached c); cbn [negb]; [|discriminate].
    destruct (modelsLoaded (app w)); cbn [negb]; [|discriminate].
    destruct (contexts_available c); cbn [negb]; [|discriminate].
    destruct (detection c) as [| |d]; try discriminate.
    destruct (head_path (box d) (jawOutline d)) as [path|] eqn:Hpath;
      [|discriminate].
    cbn [with_faceCanvas with_canvas canvas faceCanvas cv_width cv_height
         mc_width mc_height mc_filled cv_pixels].
    destruct (Nat.eqb_spec (videoWidth c) 0); cbn [orb]; [discriminate|].
    destruct (Nat.eqb_spec (videoHeight c) 0); cbn [orb]; [discriminate|].
    intros H. injection H as <-.
    exists d, path. repeat split; auto.
  - intros (d & path & (-> & -> & ->) & -> & Hpath & Hw & Hh & ->).
    cbn [negb]. rewrite Hpath.
    cbn [with_faceCanvas with_canvas canvas faceCanvas cv_width cv_height
         mc_width mc_height mc_filled cv_pixels].
    destruct (Nat.eqb_spec (videoWidth c) 0); [contradiction|].
    destruct (Nat.eqb_spec (videoHeight c) 0); [contradiction|].
    reflexivity.
Qed.

(** Every capture that gets past the guards with a detected face, a jaw
    outline that is not empty and a frame that is not empty publishes. *)
Lemma captureImage_publishes (c : Capture) (w : World) (d : FaceDetection) :
  guards_pass c w ->
  detection c = Detected d -> jawOutline d <> [] ->
  videoWidth c <> 0 -> videoHeight c <> 0 ->
  fst (captureImage rasterize toDataURL c w) = Published.
Proof.
  intros Hg Hd Hjaw Hw Hh.
  destruct (head_path_defined (box d) (jawOutline d) Hjaw) as [path Hpath].
  assert (H : captureImage rasterize toDataURL c w
              = (Published, published_world rasterize toDataURL c path w)).
  { apply captureImage_published. exists d, path. auto 10. }
  rewrite H. reflexivity.
Qed.

(** After a publishing capture the canvas holds the frame masked by the
    mask read from the face canvas, and the height field is derived from
    that canvas. *)
Lemma published_facts (c : Capture) (w w' : World) :
  captureImage rasterize toDataURL c w = (Published, w') ->
  cv_width (canvas w') = videoWidth c
  /\ cv_height (canvas w') = videoHeight c
  /\ cv_pixels (canvas w')
     = apply_mask (head_mask rasterize w') (videoFrame c)
  /\ heightMap (app w')
     = Some (make_heightmap (videoWidth c) (videoHeight c)
                            (cv_pixels (canvas w')))
  /\ imageData (app w') = Some (toDataURL (canvas w'))
  /\ error (app w') = None.
Proof.
  intros H. apply captureImage_published in H.
  destruct H as (d & path & _ & _ & _ & _ & _ & ->).
  repeat split; reflexivity.
Qed.

(** Pixel [p] of a published capture: its three colour bytes on the canvas
    and its entry of the height field. *)
Lemma published_pixel (c : Capture) (w w' : World) (p : nat) :
  captureImage rasterize toDataURL c w = (Published, w') ->
  p < videoWidth c * videoHeight c ->
  4 * p + 2 < length (videoFrame c) ->
  let v := if mask_is_white (head_mask rasterize w') (4 * p)
           then ToUint8Clamp (average (videoFrame c) (4 * p)) else 0%Z in
  let out := cv_pixels (canvas w') in
  out !! (4 * p) = Some v /\ out !! (4 * p + 1) = Some v
  /\ out !! (4 * p + 2) = Some v
  /\ exists hm, heightMap (app w') = Some hm
                /\ hm !! p = Some (Fin (inject_Z v / 255)).
Proof.
  intros Hpub Hp Hlen v out.
  destruct (published_facts _ _ _ Hpub) as (_ & _ & Hpix & Hh & _).
  fold out in Hpix, Hh.
  pose proof (masked_colour (head_mask rasterize w') (videoFrame c) p 0) as H0.
  pose proof (masked_colour (head_mask rasterize w') (videoFrame c) p 1) as H1.
  pose proof (masked_colour (head_mask rasterize w') (videoFrame c) p 2) as H2.
  rewrite Nat.add_0_r in H0. rewrite <- Hpix in H0, H1, H2.
  fold v in H0, H1, H2.
  specialize (H0 ltac:(lia) ltac:(lia)).
  specialize (H1 ltac:(lia) ltac:(lia)).
  specialize (H2 ltac:(lia) ltac:(lia)).
  repeat split; try assumption.
  eexists. split; [exact Hh|].
  rewrite make_heightmap_lookup. unfold height_of.
  destruct (Nat.ltb_spec p (videoWidth c * videoHeight c)); [|lia].
  rewrite Hpix at 1. rewrite apply_mask_length.
  destruct (Nat.ltb_spec (4 * p) (length (videoFrame c))); [|lia].
  unfold byte_at. rewrite H0. apply f_equal, num_div_byte.
Qed.

(** The handler never touches [modelsLoaded], and publishes nothing while
    the models are not loaded. *)
Lemma captureImage_app (c : Capture) (w : World) :
  let w' := snd (captureImage rasterize toDataURL c w) in
  modelsLoaded (app w') = modelsLoaded (app w)
  /\ (modelsLoaded (app w) = false ->
      heightMap (app w') = heightMap (app w)
      /\ imageData (app w') = imageData (app w)).
Proof.
  unfold captureImage.
  destruct (refs_attached c); cbn [negb]; [|simpl; auto].
  destruct (modelsLoaded (app w)) eqn:Hloaded; cbn [negb]; [|simpl; auto].
  destruct (contexts_available c); cbn [negb]; [|simpl; auto].
  split; [|discriminate].
  unfold capture_body, getImageData, getMaskData.
  destruct (detection c) as [| |d]; simpl; auto.
  destruct (head_path (box d) (jawOutline d)); simpl; auto.
  destruct (videoWidth c =? 0); simpl; auto.
  destruct (videoHeight c =? 0); simpl; auto.
Qed.

Lemma handle_keeps_unpublished (e : Event) (w : World) :
  unpublished_while_loading w ->
  unpublished_while_loading (handle rasterize toDataURL e w).
Proof.
  unfold unpublished_while_loading. intros Hinv.
  destruct e as [| | |c]; simpl; auto; try discriminate.
  destruct (captureImage_app c w) as [Hsame Hkeep].
  intros Hl. rewrite Hsame in Hl. destruct (Hkeep Hl) as [-> ->]. auto.
Qed.

(** In every world the application reaches, nothing has been published
    before the models are loaded. *)
Lemma reachable_unpublished (w : World) :
  reachable rasterize toDataURL w -> unpublished_while_loading w.
Proof.
  intros (w0 & events & Hinit & ->).
  assert (H0 : unpublished_while_loading w0).
  { unfold unpublished_while_loading. rewrite Hinit. simpl. auto. }
  clear Hinit. revert w0 H0. unfold run.
  induction events as [|e events IH]; intros w0 H0; simpl; [exact H0|].
  apply IH, handle_keeps_unpublished, H0.
Qed.

(** ** The handler on both sides of its awaited detection *)

(** Run without interruption, the handler is its second half on the world
    its first half leaves. *)
Lemma capture_body_split (c : Capture) (w : World) :
  capture_body rasterize toDataURL c w
  = capture_resume rasterize toDataURL c (capture_begin c w).
Proof. reflexivity. Qed.

Lemma captureImage_split (c : Capture) (w : World) :
  guards_pass c w ->
  captureImage rasterize toDataURL c w
  = resumeCapture rasterize toDataURL c (capture_begin c w).
Proof.
  intros (Hrefs & Hloaded & Hctx). unfold captureImage, resumeCapture.
  rewrite Hrefs, Hloaded, Hctx, capture_body_split. reflexivity.
Qed.

(** The second half publishes exactly when a face is detected, its jaw
    outline gives a path and neither canvas is empty at that moment. *)
Lemma resumeCapture_published (c : Capture) (w1 w' : World) :
  resumeCapture rasterize toDataURL c w1 = (Published, w') <->
  exists d path,
    detection c = Detected d
    /\ head_path (box d) (jawOutline d) = Value path
    /\ cv_width (canvas w1) <> 0 /\ cv_height (canvas w1) <> 0
    /\ mc_width (faceCanvas w1) <> 0 /\ mc_height (faceCanvas w1) <> 0
    /\ w' = resumed_world rasterize toDataURL path w1.
Proof.
  unfold resumeCapture, capture_resume, getImageData, getMaskData.
  split.
  - destruct (detection c) as [| |d]; try discriminate.
    destruct (head_path (box d) (jawOutline d)) as [path|] eqn:Hpath;
      [|discriminate].
    cbn [with_faceCanvas with_canvas canvas faceCanvas cv_width cv_height
         mc_width mc_height mc_filled cv_pixels].
    destruct (Nat.eqb_spec (cv_width (canvas w1)) 0); cbn [orb];
      [discriminate|].
    destruct (Nat.eqb_spec (cv_height (canvas w1)) 0); cbn [orb];
      [discriminate|].
    destruct (Nat.eqb_spec (mc_width (faceCanvas w1)) 0); cbn [orb];
      [discriminate|].
    destruct (Nat.eqb_spec (mc_height (faceCanvas w1)) 0); cbn [orb];
      [discriminate|].
    intros H. injection H as <-.
    exists d, path. repeat split; auto.
  - intros (d & path & -> & Hpath & Hw & Hh & Hmw & Hmh & ->).
    rewrite Hpath.
    cbn [with_faceCanvas with_canvas canvas faceCanvas cv_width cv_height
         mc_width mc_height mc_filled cv_pixels].
    destruct (Nat.eqb_spec (cv_width (canvas w1)) 0); [contradiction|].
    destruct (Nat.eqb_spec (cv_height (canvas w1)) 0); [contradiction|].
    destruct (Nat.eqb_spec (mc_width (faceCanvas w1)) 0); [contradiction|].
    destruct (Nat.eqb_spec (mc_height (faceCanvas w1)) 0); [contradiction|].
    reflexivity.
Qed.

(** Pixel [p] of a capture that publishes: its entry of the height field,
    from the bytes the canvas holds when the detection settles. *)
Lemma resumed_pixel (c : Capture) (w1 w' : World) (p : nat) :
  resumeCapture rasterize toDataURL c w1 = (Published, w') ->
  p < cv_width (canvas w1) * cv_height (canvas w1) ->
  4 * p + 2 < length (cv_pixels (canvas w1)) ->
  let v := if mask_is_white (head_mask rasterize w') (4 * p)
           then ToUint8Clamp (average (cv_pixels (canvas w1)) (4 * p))
           else 0%Z in
  exists hm, heightMap (app w') = Some hm
             /\ hm !! p = Some (Fin (inject_Z v / 255)).
Proof.
  intros Hpub Hp Hlen v.
  apply resumeCapture_published in Hpub.
  destruct Hpub as (d & path & _ & _ & _ & _ & _ & _ & ->).
  eexists. split; [reflexivity|].
  unfold resumed_world. cbn [canvas cv_width cv_height cv_pixels].
  unfold v, head_mask, resumed_world.
  cbn [faceCanvas mc_width mc_height mc_filled].
  set (mask := rasterize (mc_width (faceCanvas w1))
                         (mc_height (faceCanvas w1)) [path]).
  rewrite make_heightmap_lookup. unfold height_of.
  destruct (Nat.ltb_spec p (cv_width (canvas w1) * cv_height (canvas w1)));
    [|lia].
  rewrite apply_mask_length.
  destruct (Nat.ltb_spec (4 * p) (length (cv_pixels (canvas w1)))); [|lia].
  pose proof (masked_colour mask (cv_pixels (canvas w1)) p 0) as Hred.
  rewrite Nat.add_0_r in Hred.
  unfold byte_at. rewrite Hred by lia. apply f_equal, num_div_byte.
Qed.

(** ** The claims about the capture pipeline *)

(** C1, as amended: when a capture publishes, a pixel outside the head mask
    has height 0, and a pixel inside it has height [k / 255] where [k] is
    the integer nearest to the average of the R, G and B bytes the handler
    reads from the canvas for that pixel.  (Heights are exact rationals
    here: the equality is up to the rounding of the Float32Array store.)
    The canvas is read when the detection settles: it holds the frame of
    this capture unless a click during the wait has redrawn or masked
    it. *)
Theorem masked_height_is_rounded_average (c : Capture) (w1 w' : World)
    (p : nat) (r g b : Z) :
  resumeCapture rasterize toDataURL c w1 = (Published, w') ->
  p < cv_width (canvas w1) * cv_height (canvas w1) ->
  cv_pixels (canvas w1) !! (4 * p) = Some r ->
  cv_pixels (canvas w1) !! (4 * p + 1) = Some g ->
  cv_pixels (canvas w1) !! (4 * p + 2) = Some b ->
  (0 <= r <= 255)%Z -> (0 <= g <= 255)%Z -> (0 <= b <= 255)%Z ->
  exists hm q,
    heightMap (app w') = Some hm /\ hm !! p = Some (Fin q)
    /\ (mask_is_white (head_mask rasterize w') (4 * p) = false -> (q == 0)%Q)
    /\ (mask_is_white (head_mask rasterize w') (4 * p) = true ->
        exists k : Z,
          (q == inject_Z k / 255)%Q
          /\ (-1 <= 3 * k - (r + g + b) <= 1)%Z).
Proof.
  intros Hpub Hp Hr Hg Hb Rr Rg Rb.
  assert (Hlen : 4 * p + 2 < length (cv_pixels (canvas w1))).
  { apply lookup_lt_is_Some. eauto. }
  destruct (resumed_pixel c w1 w' p Hpub Hp Hlen) as (hm & Hhm & Hq).
  exists hm. eexists. split; [exact Hhm|]. split; [exact Hq|].
  destruct (mask_is_white (head_mask rasterize w') (4 * p)).
  - split; [discriminate|]. intros _.
    rewrite (average_bytes _ _ r g b Hr Hg Hb).
    pose proof (clamp_average r g b Rr Rg Rb) as Hk.
    eexists. split; [reflexivity | exact Hk].
  - split; [reflexivity | discriminate].
Qed.

(** C2: for a frame of [width * height] pixels, the height field of a
    publishing capture has exactly [width * height] entries, each a number
    between 0 and 1, and the entry at [row * width + col] is the red byte of
    pixel (row, col) of the masked image divided by 255. *)
Theorem heightfield_shape (c : Capture) (w w' : World) :
  captureImage rasterize toDataURL c w = (Published, w') ->
  length (videoFrame c) = 4 * (videoWidth c * videoHeight c) ->
  exists hm,
    heightMap (app w') = Some hm
    /\ length hm = videoWidth c * videoHeight c
    /\ (forall p v, hm !! p = Some v ->
          exists q, v = Fin q /\ (0 <= q <= 1)%Q)
    /\ (forall row col, row < videoHeight c -> col < videoWidth c ->
          exists red,
            cv_pixels (canvas w') !! (4 * (row * videoWidth c + col))
            = Some red
            /\ hm !! (row * videoWidth c + col)
               = Some (Fin (inject_Z red / 255))).
Proof.
  intros Hpub Hlen.
  destruct (published_facts _ _ _ Hpub) as (_ & _ & Hpix & Hh & _).
  eexists. split; [exact Hh|]. split; [apply make_heightmap_length|]. split.
  - intros p v Hp. rewrite Hpix in Hp.
    apply masked_height_entry in Hp.
    destruct Hp as (k & Hk & q & -> & Hq).
    exists q. split; [reflexivity|]. rewrite Hq.
    apply byte_height_range, Hk.
  - intros row col Hrow Hcol.
    assert (Hp : row * videoWidth c + col < videoWidth c * videoHeight c)
      by nia.
    destruct (published_pixel c w w' _ Hpub Hp ltac:(lia))
      as (Hred & _ & _ & hm & Hhm & Hq).
    rewrite Hh in Hhm. injection Hhm as <-.
    eexists. split; [exact Hred | exact Hq].
Qed.

(** C3, as amended: past the guards, a detection that resolves to nothing
    ends the capture with the no-face message; a detection whose jaw
    outline is empty ends it with the generic capture-error message.  In
    both cases no path is filled on the face canvas and the height field
    and the image are left as they were. *)
Theorem empty_jaw_is_capture_error (c : Capture) (w : World) :
  guards_pass c w ->
  let result := captureImage rasterize toDataURL c w in
  (detection c = DetectUndefined ->
     fst result = NoFaceDetected
     /\ error (app (snd result)) = Some msg_no_face
     /\ mc_filled (faceCanvas (snd result)) = []
     /\ heightMap (app (snd result)) = heightMap (app w)
     /\ imageData (app (snd result)) = imageData (app w))
  /\ (forall d, detection c = Detected d -> jawOutline d = [] ->
     fst result = CaptureProcessingError
     /\ error (app (snd result)) = Some msg_capture_error
     /\ mc_filled (faceCanvas (snd result)) = []
     /\ heightMap (app (snd result)) = heightMap (app w)
     /\ imageData (app (snd result)) = imageData (app w)).
Proof.
  intros (Hrefs & Hloaded & Hctx). unfold captureImage, capture_body.
  rewrite Hrefs, Hloaded, Hctx. cbn [negb]. split.
  - intros ->. cbn. auto.
  - intros d -> ->. rewrite head_path_empty. cbn. auto.
Qed.

(** C4, as amended: past the guards, a detection that resolves to nothing
    surfaces the no-face message and a detection that throws surfaces the
    generic capture-error message; in both cases the height field and the
    image are left as they were. *)
Theorem detection_failure_messages (c : Capture) (w : World) :
  guards_pass c w ->
  let result := captureImage rasterize toDataURL c w in
  (detection c = DetectUndefined ->
     fst result = NoFaceDetected
     /\ error (app (snd result)) = Some msg_no_face
     /\ heightMap (app (snd result)) = heightMap (app w)
     /\ imageData (app (snd result)) = imageData (app w))
  /\ (detection c = DetectThrows ->
     fst result = CaptureProcessingError
     /\ error (app (snd result)) = Some msg_capture_error
     /\ heightMap (app (snd result)) = heightMap (app w)
     /\ imageData (app (snd result)) = imageData (app w)).
Proof.
  intros (Hrefs & Hloaded & Hctx). unfold captureImage, capture_body.
  rewrite Hrefs, Hloaded, Hctx. cbn [negb].
  split; intros ->; cbn; auto.
Qed.

(** C7: a capture triggered with the refs attached while the models are not
    loaded does not run the pipeline: it sets the still-loading message and
    leaves the height field, the image and both canvases as they were; in
    every world the application can reach, the height field and the image
    are then unset. *)
Theorem capture_refused_while_loading (c : Capture) (w : World) :
  refs_attached c = true ->
  modelsLoaded (app w) = false ->
  let result := captureImage rasterize toDataURL c w in
  fst result = StillLoading
  /\ error (app (snd result)) = Some msg_still_loading
  /\ heightMap (app (snd result)) = heightMap (app w)
  /\ imageData (app (snd result)) = imageData (app w)
  /\ canvas (snd result) = canvas w
  /\ faceCanvas (snd result) = faceCanvas w
  /\ (reachable rasterize toDataURL w ->
      heightMap (app (snd result)) = None
      /\ imageData (app (snd result)) = None).
Proof.
  intros Hrefs Hloading. unfold captureImage.
  rewrite Hrefs, Hloading. cbn.
  do 6 (split; [reflexivity|]).
  intros Hreach. exact (reachable_unpublished w Hreach Hloading).
Qed.

(** C8: a publishing capture sets the height field (derived from the
    canvas it leaves) and the image (the encoding of that canvas), and
    empties the error slot whatever it held. *)
Theorem publish_clears_error (c : Capture) (w w' : World) :
  captureImage rasterize toDataURL c w = (Published, w') ->
  heightMap (app w')
  = Some (make_heightmap (cv_width (canvas w')) (cv_height (canvas w'))
                         (cv_pixels (canvas w')))
  /\ imageData (app w') = Some (toDataURL (canvas w'))
  /\ error (app w') = None.
Proof.
  intros Hpub.
  destruct (published_facts _ _ _ Hpub) as (-> & -> & _ & Hh & Hi & He).
  auto.
Qed.

(** C9: a pixel is treated as in-head exactly when the red byte of the mask
    at that pixel is 255.  An in-head pixel gets the clamped average in its
    three colour bytes; any other pixel, in particular one whose mask red
    byte is below 255, gets 0 in its three colour bytes and height 0. *)
Theorem mask_threshold_255 (c : Capture) (w w' : World) (p : nat) :
  captureImage rasterize toDataURL c w = (Published, w') ->
  p < videoWidth c * videoHeight c ->
  4 * p + 2 < length (videoFrame c) ->
  let mask := head_mask rasterize w' in
  let out := cv_pixels (canvas w') in
  exists hm,
    heightMap (app w') = Some hm
    /\ (mask_is_white mask (4 * p) = true <-> mask !! (4 * p) = Some 255%Z)
    /\ (mask_is_white mask (4 * p) = true ->
        let grey := ToUint8Clamp (average (videoFrame c) (4 * p)) in
        out !! (4 * p) = Some grey /\ out !! (4 * p + 1) = Some grey
        /\ out !! (4 * p + 2) = Some grey
        /\ hm !! p = Some (Fin (inject_Z grey / 255)))
    /\ (mask_is_white mask (4 * p) = false ->
        out !! (4 * p) = Some 0%Z /\ out !! (4 * p + 1) = Some 0%Z
        /\ out !! (4 * p + 2) = Some 0%Z
        /\ exists q, hm !! p = Some (Fin q) /\ (q == 0)%Q)
    /\ (forall m, mask !! (4 * p) = Some m -> (m < 255)%Z ->
        mask_is_white mask (4 * p) = false).
Proof.
  intros Hpub Hp Hlen mask out.
  destruct (published_pixel c w w' p Hpub Hp Hlen)
    as (H0 & H1 & H2 & hm & Hhm & Hq).
  fold mask out in H0, H1, H2, Hq.
  exists hm. split; [exact Hhm|].
  split; [apply mask_is_white_iff|]. split; [|split].
  - intros Hwhite grey. rewrite Hwhite in *. auto.
  - intros Hblack. rewrite Hblack in *. repeat split; auto.
    eexists. split; [exact Hq | reflexivity].
  - intros m Hm Hlt. unfold mask_is_white. rewrite Hm.
    destruct (Z.eqb_spec m 255); [lia | reflexivity].
Qed.

(** C10: every entry of a published height field is [k / 255] for an
    integer [k] between 0 and 255, whatever bytes the frame held. *)
Theorem heights_quantized (c : Capture) (w w' : World) (hm : list number)
    (p : nat) (v : number) :
  captureImage rasterize toDataURL c w = (Published, w') ->
  heightMap (app w') = Some hm ->
  hm !! p = Some v ->
  exists k : Z,
    (0 <= k <= 255)%Z /\ exists q, v = Fin q /\ (q == inject_Z k / 255)%Q.
Proof.
  intros Hpub Hhm Hp.
  destruct (published_facts _ _ _ Hpub) as (_ & _ & Hpix & Hh & _).
  rewrite Hh in Hhm. injection Hhm as <-. rewrite Hpix in Hp.
  apply masked_height_entry in Hp. exact Hp.
Qed.

End CaptureProperties.

(** ** The claim about the renderer *)

(** C5: for every height field, width and position array, the vertex of
    the grid at (row, col) gets the depth [heightMap[row * width + col] * 2];
    when that index is outside the height field or the entry is NaN the
    depth is 0.  The update is defined for every input and keeps the length
    of the position array. *)
Theorem vertex_depth_from_heightfield (heightMap : list number) (width : nat)
    (vertices : list number) (row col : nat) :
  col < width ->
  3 * (row * width + col) + 2 < length vertices ->
  exists vertices' depth,
    HeightMapMesh_effect heightMap width (Some vertices) = Some vertices'
    /\ length vertices' = length vertices
    /\ vertices' !! (3 * (row * width + col) + 2) = Some depth
    /\ match heightMap !! (row * width + col) with
       | Some (Fin q) => num_eq depth (Fin (q * 2))
       | Some (Infinity s) => depth = Infinity s
       | Some NaN | None => depth = Fin 0
       end.
Proof.
  intros Hcol Hlen. unfold HeightMapMesh_effect.
  set (v := row * width + col) in *.
  exists (for_upto (length vertices) 3 (update_vertex heightMap width) vertices).
  exists (vertex_depth heightMap width (3 * v)).
  split; [reflexivity|]. split; [apply vertex_loop_length|]. split.
  - rewrite vertex_loop_lookup. unfold updated_entry.
    destruct (lookup_lt_is_Some_2 vertices (3 * v + 2) Hlen) as [old ->].
    destruct (Nat.eqb_spec ((3 * v + 2) mod 3) 2); [|lia].
    replace (3 * ((3 * v + 2) / 3)) with (3 * v) by lia. reflexivity.
  - pose proof (vertex_depth_cases heightMap width (3 * v)) as H.
    unfold height_lookup in H. unfold v in H at 1.
    rewrite height_index_grid in H by exact Hcol. exact H.
Qed.

(** ** The claims on the sample inputs *)

Lemma sample_capture_publishes :
  captureImage sample_rasterize sample_toDataURL
               (sample_capture sample_found) sample_ready
  = (Published, sample_published).
Proof. vm_compute. reflexivity. Qed.

(** The first pixel of the sample frame, (10, 20, 31), is inside the mask;
    nothing touches the canvas between the two halves of the capture. *)
Lemma masked_height_is_rounded_average_witness :
  exists hm q,
    heightMap (app sample_published) = Some hm /\ hm !! 0 = Some (Fin q)
    /\ (mask_is_white (head_mask sample_rasterize sample_published) (4 * 0)
        = false -> (q == 0)%Q)
    /\ (mask_is_white (head_mask sample_rasterize sample_published) (4 * 0)
        = true ->
        exists k : Z,
          (q == inject_Z k / 255)%Q
          /\ (-1 <= 3 * k - (10 + 20 + 31) <= 1)%Z).
Proof.
  apply (masked_height_is_rounded_average sample_rasterize sample_toDataURL
           (sample_capture sample_found)
           (capture_begin (sample_capture sample_found) sample_ready)
           sample_published 0 10 20 31).
  - vm_compute. reflexivity.
  - simpl. lia.
  - reflexivity.
  - reflexivity.
  - reflexivity.
  - lia.
  - lia.
  - lia.
Defined.

(** C1 as stated fails on the sample frame: its first pixel (10, 20, 31) is
    inside the mask and has average 61/3, the published height is 20/255,
    and the two differ by 1/765, far more than a Float32Array store can
    change. *)
Lemma height_differs_from_luminance :
  fst (captureImage sample_rasterize sample_toDataURL
                    (sample_capture sample_found) sample_ready) = Published
  /\ videoFrame (sample_capture sample_found) !! 0 = Some 10%Z
  /\ videoFrame (sample_capture sample_found) !! 1 = Some 20%Z
  /\ videoFrame (sample_capture sample_found) !! 2 = Some 31%Z
  /\ mask_is_white (head_mask sample_rasterize sample_published) 0 = true
  /\ exists hm q,
       heightMap (app sample_published) = Some hm
       /\ hm !! 0 = Some (Fin q)
       /\ (q == 20 # 255)%Q
       /\ ~ (Qabs (q - (inject_Z (10 + 20 + 31) / 3) / 255)
             <= float32_epsilon)%Q.
Proof.
  split; [vm_compute; reflexivity|].
  do 4 (split; [reflexivity|]).
  eexists. eexists. split; [vm_compute; reflexivity|].
  split; [vm_compute; reflexivity|].
  split; [reflexivity|].
  intros H. apply Qle_bool_iff in H. vm_compute in H. discriminate.
Qed.

(** The sample frame of 2 x 1 pixels gives a height field of two entries. *)
Lemma heightfield_shape_witness :
  exists hm,
    heightMap (app sample_published) = Some hm
    /\ length hm
       = videoWidth (sample_capture sample_found)
         * videoHeight (sample_capture sample_found)
    /\ (forall p v, hm !! p = Some v ->
          exists q, v = Fin q /\ (0 <= q <= 1)%Q)
    /\ (forall row col,
          row < videoHeight (sample_capture sample_found) ->
          col < videoWidth (sample_capture sample_found) ->
          exists red,
            cv_pixels (canvas sample_published)
              !! (4 * (row * videoWidth (sample_capture sample_found) + col))
            = Some red
            /\ hm !! (row * videoWidth (sample_capture sample_found) + col)
               = Some (Fin (inject_Z red / 255))).
Proof.
  apply (heightfield_shape sample_rasterize sample_toDataURL
           (sample_capture sample_found) sample_ready sample_published).
  - vm_compute. reflexivity.
  - reflexivity.
Defined.

(** A detection with an empty jaw outline on the sample frame. *)
Lemma empty_jaw_is_capture_error_witness :
  let c := sample_capture (Detected (sample_detection [])) in
  let result := captureImage sample_rasterize sample_toDataURL c
                             sample_ready in
  guards_pass c sample_ready
  /\ fst result = CaptureProcessingError
  /\ error (app (snd result)) = Some msg_capture_error
  /\ mc_filled (faceCanvas (snd result)) = []
  /\ heightMap (app (snd result)) = heightMap (app sample_ready)
  /\ imageData (app (snd result)) = imageData (app sample_ready).
Proof.
  intros c result.
  assert (Hg : guards_pass c sample_ready) by (repeat split; reflexivity).
  split; [exact Hg|].
  exact (proj2 (empty_jaw_is_capture_error sample_rasterize sample_toDataURL
                  c sample_ready Hg)
               (sample_detection []) eq_refl eq_refl).
Defined.

(** C3 as stated fails for a detection whose jaw outline is empty: the
    capture ends with the generic capture-error message, not with the
    no-face message. *)
Lemma empty_jaw_not_no_face :
  let c := sample_capture (Detected (sample_detection [])) in
  let result := captureImage sample_rasterize sample_toDataURL c
                             sample_ready in
  guards_pass c sample_ready
  /\ jawOutline (sample_detection []) = []
  /\ fst result = CaptureProcessingError
  /\ fst result <> NoFaceDetected
  /\ error (app (snd result)) = Some msg_capture_error
  /\ error (app (snd result)) <> Some msg_no_face.
Proof.
  intros c result.
  split; [repeat split; reflexivity|].
  split; [reflexivity|].
  split; [vm_compute; reflexivity|].
  split; [vm_compute; discriminate|].
  split; [vm_compute; reflexivity|].
  vm_compute. discriminate.
Qed.

(** A detector that throws on the sample frame. *)
Lemma detection_failure_messages_witness :
  let c := sample_capture DetectThrows in
  let result := captureImage sample_rasterize sample_toDataURL c
                             sample_ready in
  guards_pass c sample_ready
  /\ fst result = CaptureProcessingError
  /\ error (app (snd result)) = Some msg_capture_error
  /\ heightMap (app (snd result)) = heightMap (app sample_ready)
  /\ imageData (app (snd result)) = imageData (app sample_ready).
Proof.
  intros c result.
  assert (Hg : guards_pass c sample_ready) by (repeat split; reflexivity).
  split; [exact Hg|].
  exact (proj2 (detection_failure_messages sample_rasterize sample_toDataURL
                  c sample_ready Hg) eq_refl).
Defined.

(** C4 as stated fails when the detector throws: the capture surfaces the
    generic capture-error message, not the no-face message. *)
Lemma detector_throw_not_no_face :
  let c := sample_capture DetectThrows in
  let result := captureImage sample_rasterize sample_toDataURL c
                             sample_ready in
  guards_pass c sample_ready
  /\ detection c = DetectThrows
  /\ fst result = CaptureProcessingError
  /\ error (app (snd result)) = Some msg_capture_error
  /\ error (app (snd result)) <> Some msg_no_face
  /\ heightMap (app (snd result)) = heightMap (app sample_ready).
Proof.
  intros c result.
  split; [repeat split; reflexivity|].
  split; [reflexivity|].
  split; [vm_compute; reflexivity|].
  split; [vm_compute; reflexivity|].
  split; [vm_compute; discriminate|].
  vm_compute. reflexivity.
Qed.

Lemma sample_loading_reachable :
  reachable sample_rasterize sample_toDataURL sample_loading.
Proof. exists sample_loading, []. split; reflexivity. Qed.

(** A click right after mounting, before the models are loaded. *)
Lemma capture_refused_while_loading_witness :
  let result := captureImage sample_rasterize sample_toDataURL
                             (sample_capture sample_found) sample_loading in
  fst result = StillLoading
  /\ error (app (snd result)) = Some msg_still_loading
  /\ heightMap (app (snd result)) = None
  /\ imageData (app (snd result)) = None.
Proof.
  intros result.
  destruct (capture_refused_while_loading sample_rasterize sample_toDataURL
              (sample_capture sample_found) sample_loading
              eq_refl eq_refl)
    as (Hout & Herr & _ & _ & _ & _ & Hunset).
  destruct (Hunset sample_loading_reachable) as [Hhm Himg].
  repeat split; assumption.
Defined.

(** The sample capture replaces the message of the earlier failure. *)
Lemma publish_clears_error_witness :
  error (app sample_ready) = Some msg_no_face
  /\ heightMap (app sample_published)
     = Some (make_heightmap (cv_width (canvas sample_published))
                            (cv_height (canvas sample_published))
                            (cv_pixels (canvas sample_published)))
  /\ imageData (app sample_published)
     = Some (sample_toDataURL (canvas sample_published))
  /\ error (app sample_published) = None.
Proof.
  split; [reflexivity|].
  apply (publish_clears_error sample_rasterize sample_toDataURL
           (sample_capture sample_found) sample_ready sample_published).
  vm_compute. reflexivity.
Defined.

(** The second pixel of the sample frame has mask red byte 128. *)
Lemma mask_threshold_255_witness :
  head_mask sample_rasterize sample_published !! (4 * 1) = Some 128%Z
  /\ mask_is_white (head_mask sample_rasterize sample_published) (4 * 1)
     = false
  /\ cv_pixels (canvas sample_published) !! (4 * 1) = Some 0%Z
  /\ cv_pixels (canvas sample_published) !! (4 * 1 + 1) = Some 0%Z
  /\ cv_pixels (canvas sample_published) !! (4 * 1 + 2) = Some 0%Z
  /\ exists hm q,
       heightMap (app sample_published) = Some hm
       /\ hm !! 1 = Some (Fin q) /\ (q == 0)%Q.
Proof.
  destruct (mask_threshold_255 sample_rasterize sample_toDataURL
              (sample_capture sample_found) sample_ready sample_published 1)
    as (hm & Hhm & _ & _ & Hout & Hlow).
  - vm_compute. reflexivity.
  - simpl. lia.
  - simpl. lia.
  - assert (Hm : head_mask sample_rasterize sample_published !! (4 * 1)
                 = Some 128%Z) by reflexivity.
    pose proof (Hlow 128%Z Hm ltac:(lia)) as Hblack.
    destruct (Hout Hblack) as (H0 & H1 & H2 & q & Hq & Hz).
    repeat split; try assumption.
    exists hm, q. repeat split; assumption.
Defined.

(** The first entry of the sample height field is 20/255. *)
Lemma heights_quantized_witness :
  exists k : Z,
    (0 <= k <= 255)%Z
    /\ exists q, Fin (20 # 255) = Fin q /\ (q == inject_Z k / 255)%Q.
Proof.
  apply (heights_quantized sample_rasterize sample_toDataURL
           (sample_capture sample_found) sample_ready sample_published
           [Fin (20 # 255); Fin (0 # 255)] 0 (Fin (20 # 255))).
  - vm_compute. reflexivity.
  - vm_compute. reflexivity.
  - reflexivity.
Defined.

(** The vertex at row 1, column 0 of the sample grid reads entry 2. *)
Lemma vertex_depth_from_heightfield_witness :
  exists vertices' depth,
    HeightMapMesh_effect sample_heights 2 (Some sample_vertices) = Some vertices'
    /\ length vertices' = length sample_vertices
    /\ vertices' !! (3 * (1 * 2 + 0) + 2) = Some depth
    /\ match sample_heights !! (1 * 2 + 0) with
       | Some (Fin q) => num_eq depth (Fin (q * 2))
       | Some (Infinity s) => depth = Infinity s
       | Some NaN | None => depth = Fin 0
       end.
Proof.
  apply (vertex_depth_from_heightfield sample_heights 2 sample_vertices 1 0).
  - lia.
  - simpl. lia.
Defined.

(** The renderer on the whole sample: the vertex that reads NaN and the
    vertex that reads outside the height field get depth 0. *)
Example sample_render :
  HeightMapMesh_effect sample_heights 2 (Some sample_vertices)
  = Some [Fin (-5); Fin 5; Fin ((1 # 2) * 2); Fin 5; Fin 5; Fin 0;
          Fin (-5); Fin (-5); Fin (1 * 2); Fin 5; Fin (-5); Fin 0].
Proof. reflexivity. Qed.

(** * Further properties of the code *)

(** ** The masking loop on any frame and mask *)

(** X1: the masking loop never writes an alpha byte and never changes the
    length of the pixel array. *)
Theorem masking_keeps_alpha (faceMask data : list Z) (k : nat) :
  k mod 4 = 3 ->
  apply_mask faceMask data !! k = data !! k
  /\ length (apply_mask faceMask data) = length data.
Proof.
  intros Hk. split; [|apply apply_mask_length].
  rewrite apply_mask_lookup. unfold masked_byte.
  destruct (data !! k); [|reflexivity].
  destruct (Nat.eqb_spec (k mod 4) 3); [reflexivity | contradiction].
Qed.

(** X2: whatever the frame and the mask, every complete pixel of the
    masked image has its three colour bytes equal, and they are a byte. *)
Theorem masked_pixels_are_grey (faceMask data : list Z) (p : nat) :
  4 * p + 2 < length data ->
  exists v : Z,
    (0 <= v <= 255)%Z
    /\ apply_mask faceMask data !! (4 * p) = Some v
    /\ apply_mask faceMask data !! (4 * p + 1) = Some v
    /\ apply_mask faceMask data !! (4 * p + 2) = Some v.
Proof.
  intros Hlen.
  pose proof (masked_colour faceMask data p 0) as H0.
  pose proof (masked_colour faceMask data p 1) as H1.
  pose proof (masked_colour faceMask data p 2) as H2.
  rewrite Nat.add_0_r in H0.
  eexists. split; [|split; [apply H0; lia | split; [apply H1 | apply H2]; lia]].
  destruct (mask_is_white faceMask (4 * p));
    [apply ToUint8Clamp_range | lia].
Qed.

(** A byte that is already in range is stored as it is when it is the
    average of three copies of itself. *)
Lemma clamp_average_same (v : Z) :
  (0 <= v <= 255)%Z ->
  ToUint8Clamp (Fin ((inject_Z v + inject_Z v + inject_Z v) / 3)) = v.
Proof.
  intros Hv. pose proof (clamp_average v v v Hv Hv Hv). lia.
Qed.

(** A colour byte of pixel [p] after masking, also where the array ends
    inside the pixel. *)
Lemma masked_colour_opt (faceMask data : list Z) (p j : nat) :
  j < 3 ->
  apply_mask faceMask data !! (4 * p + j)
  = match data !! (4 * p + j) with
    | Some _ => Some (if mask_is_white faceMask (4 * p)
                      then ToUint8Clamp (average data (4 * p)) else 0%Z)
    | None => None
    end.
Proof.
  intros Hj. rewrite apply_mask_lookup. unfold masked_byte.
  destruct (data !! (4 * p + j)); [|reflexivity].
  destruct (Nat.eqb_spec ((4 * p + j) mod 4) 3); [lia|].
  replace (4 * ((4 * p + j) / 4)) with (4 * p) by lia. reflexivity.
Qed.

(** The average the second pass computes on a pixel the first pass wrote is
    stored as the byte the first pass stored. *)
Lemma average_of_masked (faceMask data : list Z) (p : nat) :
  mask_is_white faceMask (4 * p) = true ->
  ToUint8Clamp (average (apply_mask faceMask data) (4 * p))
  = ToUint8Clamp (average data (4 * p)).
Proof.
  intros Hwhite.
  pose proof (masked_colour_opt faceMask data p 0 ltac:(lia)) as H0.
  pose proof (masked_colour_opt faceMask data p 1 ltac:(lia)) as H1.
  pose proof (masked_colour_opt faceMask data p 2 ltac:(lia)) as H2.
  rewrite Nat.add_0_r, Hwhite in H0. rewrite Hwhite in H1, H2.
  unfold average at 1. unfold byte_at. rewrite H0, H1, H2.
  set (v := ToUint8Clamp (average data (4 * p))).
  assert (Hv : (0 <= v <= 255)%Z) by apply ToUint8Clamp_range.
  destruct (data !! (4 * p)) as [r|] eqn:Er;
    destruct (data !! (4 * p + 1)) as [g|] eqn:Eg;
    destruct (data !! (4 * p + 2)) as [b|] eqn:Eb;
    try (unfold v, average, byte_at; rewrite Er, Eg, Eb; reflexivity).
  apply (clamp_average_same v Hv).
Qed.

(** X3: masking an already masked image with the same mask changes
    nothing. *)
Theorem masking_idempotent (faceMask data : list Z) :
  apply_mask faceMask (apply_mask faceMask data) = apply_mask faceMask data.
Proof.
  apply list_eq. intros k.
  rewrite (apply_mask_lookup faceMask (apply_mask faceMask data)).
  unfold masked_byte at 1.
  destruct (apply_mask faceMask data !! k) as [v|] eqn:Hv; [|reflexivity].
  destruct (Nat.eqb_spec (k mod 4) 3); [reflexivity|].
  f_equal. rewrite apply_mask_lookup in Hv. unfold masked_byte in Hv.
  destruct (data !! k); [|discriminate].
  destruct (Nat.eqb_spec (k mod 4) 3); [contradiction|].
  assert (E : (if mask_is_white faceMask (4 * (k / 4))
               then ToUint8Clamp (average data (4 * (k / 4))) else 0%Z) = v)
    by congruence.
  rewrite <- E.
  destruct (mask_is_white faceMask (4 * (k / 4))) eqn:Hwhite; [|reflexivity].
  apply average_of_masked, Hwhite.
Qed.

(** X4: when no byte of the mask is 255 (an empty mask included), every
    colour byte of the masked image is 0 and every entry of the height
    field is 0. *)
Theorem dark_mask_gives_flat_field (width height : nat)
    (faceMask data : list Z) (p : nat) (v : number) :
  (forall i, faceMask !! i <> Some 255%Z) ->
  make_heightmap width height (apply_mask faceMask data) !! p = Some v ->
  num_eq v (Fin 0)
  /\ forall k b, k mod 4 <> 3 ->
       apply_mask faceMask data !! k = Some b -> b = 0%Z.
Proof.
  intros Hdark Hv.
  assert (Hblack : forall i, mask_is_white faceMask i = false).
  { intros i. destruct (mask_is_white faceMask i) eqn:E; [|reflexivity].
    apply mask_is_white_iff in E. destruct (Hdark i E). }
  split.
  - rewrite make_heightmap_lookup in Hv. unfold height_of in Hv.
    destruct (Nat.ltb_spec p (width * height)); [|discriminate].
    rewrite apply_mask_length in Hv.
    destruct (Nat.ltb_spec (4 * p) (length data)) as [Hlt|Hge].
    + pose proof (masked_colour faceMask data p 0) as Hred.
      rewrite Nat.add_0_r, Hblack in Hred.
      unfold byte_at in Hv. rewrite Hred in Hv by lia.
      rewrite num_div_byte in Hv.
      assert (E : v = Fin (inject_Z 0 / 255)) by congruence.
      rewrite E. reflexivity.
    + assert (E : v = Fin 0) by congruence. rewrite E. reflexivity.
  - intros k b Hk. rewrite apply_mask_lookup. unfold masked_byte.
    destruct (data !! k); [|discriminate].
    destruct (Nat.eqb_spec (k mod 4) 3); [contradiction|].
    rewrite Hblack. congruence.
Qed.

(** X5: of two pixels inside the mask, the one whose R, G and B bytes have
    the larger sum gets a grey byte and a height that are not smaller. *)
Theorem brighter_pixel_is_not_lower (faceMask data : list Z) (p1 p2 : nat)
    (r1 g1 b1 r2 g2 b2 : Z) :
  mask_is_white faceMask (4 * p1) = true ->
  mask_is_white faceMask (4 * p2) = true ->
  data !! (4 * p1) = Some r1 -> data !! (4 * p1 + 1) = Some g1 ->
  data !! (4 * p1 + 2) = Some b1 ->
  data !! (4 * p2) = Some r2 -> data !! (4 * p2 + 1) = Some g2 ->
  data !! (4 * p2 + 2) = Some b2 ->
  (0 <= r1 <= 255)%Z -> (0 <= g1 <= 255)%Z -> (0 <= b1 <= 255)%Z ->
  (0 <= r2 <= 255)%Z -> (0 <= g2 <= 255)%Z -> (0 <= b2 <= 255)%Z ->
  (r1 + g1 + b1 <= r2 + g2 + b2)%Z ->
  exists v1 v2 : Z,
    apply_mask faceMask data !! (4 * p1) = Some v1
    /\ apply_mask faceMask data !! (4 * p2) = Some v2
    /\ (v1 <= v2)%Z
    /\ forall width height h1 h2,
         make_heightmap width height (apply_mask faceMask data) !! p1
         = Some (Fin h1) ->
         make_heightmap width height (apply_mask faceMask data) !! p2
         = Some (Fin h2) ->
         (h1 <= h2)%Q.
Proof.
  intros W1 W2 Hr1 Hg1 Hb1 Hr2 Hg2 Hb2 R1 G1 B1 R2 G2 B2 Hle.
  pose proof (masked_colour_opt faceMask data p1 0 ltac:(lia)) as H1.
  pose proof (masked_colour_opt faceMask data p2 0 ltac:(lia)) as H2.
  rewrite Nat.add_0_r in H1, H2. rewrite Hr1, W1 in H1. rewrite Hr2, W2 in H2.
  rewrite (average_bytes _ _ _ _ _ Hr1 Hg1 Hb1) in H1.
  rewrite (average_bytes _ _ _ _ _ Hr2 Hg2 Hb2) in H2.
  rewrite clamp_average_formula in H1, H2 by assumption.
  assert (Hv : ((r1 + g1 + b1 + 1) / 3 <= (r2 + g2 + b2 + 1) / 3)%Z)
    by (apply Z.div_le_mono; lia).
  eexists. eexists. split; [exact H1|]. split; [exact H2|].
  split; [exact Hv|].
  intros width height h1 h2.
  rewrite !make_heightmap_lookup. unfold height_of.
  destruct (Nat.ltb_spec p1 (width * height)); [|discriminate].
  destruct (Nat.ltb_spec p2 (width * height)); [|discriminate].
  rewrite apply_mask_length.
  assert (4 * p1 < length data) by (apply lookup_lt_is_Some; eauto).
  assert (4 * p2 < length data) by (apply lookup_lt_is_Some; eauto).
  destruct (Nat.ltb_spec (4 * p1) (length data)); [|lia].
  destruct (Nat.ltb_spec (4 * p2) (length data)); [|lia].
  unfold byte_at. rewrite H1, H2, !num_div_byte.
  intros E1 E2.
  assert (E1' : (inject_Z ((r1 + g1 + b1 + 1) / 3) / 255)%Q = h1) by congruence.
  assert (E2' : (inject_Z ((r2 + g2 + b2 + 1) / 3) / 255)%Q = h2) by congruence.
  rewrite <- E1', <- E2'.
  unfold Qle, Qdiv, Qmult, Qinv, inject_Z. simpl. lia.
Qed.

(** ** The head-mask path, command by command *)

(** The path for an outline with a last point, in full. *)
Lemma head_path_value (faceBox : Box) (jaw : list Point) (last : Point) :
  head_path faceBox (jaw ++ [last])
  = Value
      ([MoveTo (x faceBox - extendedWidth faceBox * (2 # 10))
               (centerY faceBox);
        QuadraticCurveTo
          (x faceBox - extendedWidth faceBox * (1 # 10))
          (topY faceBox - extendedHeight faceBox * (1 # 10))
          (centerX faceBox)
          (topY faceBox - extendedHeight faceBox * (2 # 10));
        QuadraticCurveTo
          (x faceBox + width faceBox + extendedWidth faceBox * (1 # 10))
          (topY faceBox - extendedHeight faceBox * (1 # 10))
          (x faceBox + width faceBox + extendedWidth faceBox * (2 # 10))
          (centerY faceBox);
        QuadraticCurveTo
          (x faceBox + width faceBox + extendedWidth faceBox * (1 # 10))
          (y faceBox + height faceBox + extendedHeight faceBox * (1 # 10))
          (px last) (py last)]
       ++ map line_to (rev jaw)
       ++ [QuadraticCurveTo
             (x faceBox - extendedWidth faceBox * (1 # 10))
             (y faceBox + height faceBox + extendedHeight faceBox * (1 # 10))
             (x faceBox - extendedWidth faceBox * (2 # 10))
             (centerY faceBox);
           ClosePath]).
Proof.
  unfold head_path, jaw_point. rewrite length_app. simpl length.
  destruct (Z.ltb_spec (Z.of_nat (length jaw + 1) - 1) 0); [lia|].
  replace (Z.to_nat (Z.of_nat (length jaw + 1) - 1)) with (length jaw) by lia.
  rewrite lookup_app_r by lia. rewrite Nat.sub_diag.
  cbn [lookup list_lookup attempt_bind].
  replace (Z.to_nat (Z.of_nat (length jaw + 1) - 2 + 1)) with (length jaw)
    by lia.
  rewrite jaw_lines_reverse by (rewrite length_app; lia).
  rewrite take_app_length. cbn [attempt_bind]. reflexivity.
Qed.

(** X6: building the path throws exactly when the jaw outline is empty. *)
Theorem head_path_throws_iff_empty (faceBox : Box) (jawLine : list Point) :
  head_path faceBox jawLine = Thrown <-> jawLine = [].
Proof.
  split.
  - intros H. destruct jawLine as [|p jaw]; [reflexivity|].
    destruct (head_path_defined faceBox (p :: jaw)) as [path Hpath];
      [discriminate | congruence].
  - intros ->. apply head_path_empty.
Qed.

(** Where a point of the outline ends up when the outline is traced last
    point first. *)
Lemma lookup_map_rev {A B : Type} (f : A -> B) (l : list A) (i : nat) (a : A) :
  l !! i = Some a -> map f (rev l) !! (length l - 1 - i) = Some (f a).
Proof.
  revert i. induction l as [|b l IH]; intros i Hi; [discriminate|].
  assert (Hlen : length (map f (rev l)) = length l)
    by (rewrite length_map, length_rev; reflexivity).
  simpl rev. rewrite map_app. simpl length. destruct i as [|i]; simpl in Hi.
  - assert (b = a) by congruence. subst b.
    rewrite lookup_app_r by lia.
    replace (S (length l) - 1 - 0 - length (map f (rev l))) with 0 by lia.
    reflexivity.
  - assert (Hlt : i < length l) by (apply lookup_lt_is_Some; eauto).
    rewrite lookup_app_l by lia.
    replace (S (length l) - 1 - S i) with (length l - 1 - i) by lia.
    apply IH, Hi.
Qed.

(** X7: for an outline of [n] points the path has [n + 5] commands, each
    of them fixed: a move to the point left of the face at mid height, the
    arc up to the top of the head, the arc down to the mirrored point on
    the right, the arc to the last jaw point, a line to each other jaw
    point from last to first, the arc back to the starting point, and
    [closePath]. *)
Theorem head_path_is_closed_outline (faceBox : Box) (jaw : list Point)
    (last : Point) :
  let ew := extendedWidth faceBox in
  let eh := extendedHeight faceBox in
  let left := (x faceBox)%Q in
  let right := (x faceBox + width faceBox)%Q in
  let bottom := (y faceBox + height faceBox)%Q in
  let sx := (left - ew * (2 # 10))%Q in
  let sy := centerY faceBox in
  exists path,
    head_path faceBox (jaw ++ [last]) = Value path
    /\ length path = length jaw + 6
    /\ path !! 0 = Some (MoveTo sx sy)
    /\ path !! 1
       = Some (QuadraticCurveTo (left - ew * (1 # 10))
                                (topY faceBox - eh * (1 # 10))
                                (centerX faceBox)
                                (topY faceBox - eh * (2 # 10)))
    /\ path !! 2
       = Some (QuadraticCurveTo (right + ew * (1 # 10))
                                (topY faceBox - eh * (1 # 10))
                                (right + ew * (2 # 10)) sy)
    /\ path !! 3
       = Some (QuadraticCurveTo (right + ew * (1 # 10))
                                (bottom + eh * (1 # 10))
                                (px last) (py last))
    /\ (forall i p, jaw !! i = Some p ->
          path !! (4 + (length jaw - 1 - i)) = Some (line_to p))
    /\ path !! (length jaw + 4)
       = Some (QuadraticCurveTo (left - ew * (1 # 10))
                                (bottom + eh * (1 # 10)) sx sy)
    /\ path !! (length jaw + 5) = Some ClosePath.
Proof.
  intros ew eh left right bottom sx sy.
  eexists. split; [apply head_path_value|].
  assert (Hlen : length (map line_to (rev jaw)) = length jaw)
    by (rewrite length_map, length_rev; reflexivity).
  split; [|do 4 (split; [reflexivity|]); split; [|split]].
  - rewrite !length_app, Hlen. simpl. lia.
  - intros i p Hi.
    assert (Hlt : i < length jaw) by (apply lookup_lt_is_Some; eauto).
    rewrite lookup_app_r by (simpl; lia).
    replace (4 + (length jaw - 1 - i) - length _) with (length jaw - 1 - i)
      by (simpl; lia).
    rewrite lookup_app_l by lia.
    apply lookup_map_rev, Hi.
  - rewrite lookup_app_r by (simpl; lia).
    rewrite lookup_app_r by (simpl; lia).
    replace (length jaw + 4 - _ - _) with 0 by (simpl; lia).
    reflexivity.
  - rewrite lookup_app_r by (simpl; lia).
    rewrite lookup_app_r by (simpl; lia).
    replace (length jaw + 5 - _ - _) with 1 by (simpl; lia).
    reflexivity.
Qed.


(** ** Every way a capture ends *)

Section CaptureOutcomes.

Variable rasterize : nat -> nat -> list (list PathCmd) -> list Z.
Variable toDataURL : Canvas -> string.

(** The five ways a capture ends, with the world each leaves. *)
Lemma captureImage_cases (c : Capture) (w : World) :
  let result := captureImage rasterize toDataURL c w in
  (result = (SilentAbort, w))
  \/ (modelsLoaded (app w) = false
      /\ result = (StillLoading, with_app (setError (Some msg_still_loading)) w))
  \/ (guards_pass c w /\ fst result = NoFaceDetected
      /\ app (snd result) = setError (Some msg_no_face) (app w)
      /\ mc_filled (faceCanvas (snd result)) = [])
  \/ (guards_pass c w /\ fst result = CaptureProcessingError
      /\ app (snd result) = setError (Some msg_capture_error) (app w)
      /\ (mc_filled (faceCanvas (snd result)) = []
          \/ exists d path,
               detection c = Detected d
               /\ head_path (box d) (jawOutline d) = Value path
               /\ mc_filled (faceCanvas (snd result)) = [path]))
  \/ (exists d path,
        guards_pass c w /\ detection c = Detected d
        /\ head_path (box d) (jawOutline d) = Value path
        /\ result = (Published, published_world rasterize toDataURL c path w)).
Proof.
  unfold captureImage, capture_body, guards_pass, getImageData, getMaskData.
  destruct (refs_attached c); cbn [negb]; [|auto].
  destruct (modelsLoaded (app w)) eqn:Hl; cbn [negb]; [|auto].
  destruct (contexts_available c); cbn [negb]; [|auto].
  destruct (detection c) as [| |d] eqn:Hd.
  - right; right; right; left. cbn. auto 10.
  - right; right; left. cbn. auto 10.
  - destruct (head_path (box d) (jawOutline d)) as [path|] eqn:Hpath.
    + cbn [with_faceCanvas with_canvas canvas faceCanvas cv_width cv_height
           mc_width mc_height mc_filled cv_pixels].
      destruct (videoWidth c =? 0); cbn [orb].
      { right; right; right; left. cbn. repeat split; auto.
        right. exists d, path. auto. }
      destruct (videoHeight c =? 0); cbn [orb].
      { right; right; right; left. cbn. repeat split; auto.
        right. exists d, path. auto. }
      right; right; right; right. exists d, path. auto 10.
    + right; right; right; left. cbn. auto 10.
Qed.

(** X8: a capture that does not publish leaves the height field, the image
    and the loaded flag as they were, whatever made it stop. *)
Theorem failed_capture_publishes_nothing (c : Capture) (w : World) :
  fst (captureImage rasterize toDataURL c w) <> Published ->
  heightMap (app (snd (captureImage rasterize toDataURL c w)))
  = heightMap (app w)
  /\ imageData (app (snd (captureImage rasterize toDataURL c w)))
     = imageData (app w)
  /\ modelsLoaded (app (snd (captureImage rasterize toDataURL c w)))
     = modelsLoaded (app w).
Proof.
  intros Hne.
  destruct (captureImage_cases c w)
    as [H|[[_ H]|[(_ & _ & H & _)|[(_ & _ & H & _)|(d & path & _ & _ & _ & H)]]]];
    try (rewrite H; cbn; auto; fail).
  rewrite H in Hne. cbn in Hne. congruence.
Qed.

(** X9: after a capture that is not a silent abort, the error slot names
    the outcome: it is empty exactly when the capture published, and holds
    the still-loading, no-face or capture-error message exactly when the
    capture ended that way. *)
Theorem error_slot_tells_outcome (c : Capture) (w : World) :
  fst (captureImage rasterize toDataURL c w) <> SilentAbort ->
  let result := captureImage rasterize toDataURL c w in
  (error (app (snd result)) = None <-> fst result = Published)
  /\ (error (app (snd result)) = Some msg_still_loading
      <-> fst result = StillLoading)
  /\ (error (app (snd result)) = Some msg_no_face
      <-> fst result = NoFaceDetected)
  /\ (error (app (snd result)) = Some msg_capture_error
      <-> fst result = CaptureProcessingError).
Proof.
  intros Hne result. unfold result.
  destruct (captureImage_cases c w)
    as [H|[[_ H]|[(_ & Ho & H & _)|[(_ & Ho & H & _)|(d & path & _ & _ & _ & H)]]]].
  - rewrite H in Hne. cbn in Hne. congruence.
  - rewrite H. cbn. repeat split; intros; congruence || discriminate.
  - rewrite Ho, H. cbn. repeat split; intros; congruence || discriminate.
  - rewrite Ho, H. cbn. repeat split; intros; congruence || discriminate.
  - rewrite H. cbn. repeat split; intros; congruence || discriminate.
Qed.

(** X10: what a publishing capture leaves (height field, image, empty
    error slot, both canvases) is determined by the canvas it reads when
    the detection settles, the size of the face canvas, the detection and
    the rasteriser: the height field, image and message of before and the
    earlier fills of the face canvas have no influence. *)
Theorem capture_reads_only_the_canvas (c : Capture) (w1 w2 w1' : World) :
  resumeCapture rasterize toDataURL c w1 = (Published, w1') ->
  canvas w2 = canvas w1 ->
  mc_width (faceCanvas w2) = mc_width (faceCanvas w1) ->
  mc_height (faceCanvas w2) = mc_height (faceCanvas w1) ->
  exists w2',
    resumeCapture rasterize toDataURL c w2 = (Published, w2')
    /\ heightMap (app w2') = heightMap (app w1')
    /\ imageData (app w2') = imageData (app w1')
    /\ error (app w2') = None /\ error (app w1') = None
    /\ canvas w2' = canvas w1'
    /\ faceCanvas w2' = faceCanvas w1'.
Proof.
  intros H1 Hc Hmw Hmh.
  apply resumeCapture_published in H1.
  destruct H1 as (d & path & Hd & Hp & Hw & Hh & Hfw & Hfh & ->).
  exists (resumed_world rasterize toDataURL path w2). split.
  - apply resumeCapture_published. exists d, path.
    rewrite Hc, Hmw, Hmh. repeat split; auto.
  - unfold resumed_world. cbn. rewrite Hc, Hmw, Hmh. repeat split.
Qed.



(** X23: a capture whose detection is still pending when a later click
    begins reads the canvas of the later click: what it publishes is its
    own mask applied to the frame of the later click, at the size of the
    later click. *)
Theorem pending_capture_reads_later_frame (c1 c2 : Capture) (w : World)
    (d : FaceDetection) :
  detection c1 = Detected d ->
  jawOutline d <> [] ->
  videoWidth c2 <> 0 -> videoHeight c2 <> 0 ->
  let result := resumeCapture rasterize toDataURL c1
                  (capture_begin c2 (capture_begin c1 w)) in
  exists path,
    head_path (box d) (jawOutline d) = Value path
    /\ fst result = Published
    /\ cv_width (canvas (snd result)) = videoWidth c2
    /\ cv_height (canvas (snd result)) = videoHeight c2
    /\ cv_pixels (canvas (snd result))
       = apply_mask (rasterize (videoWidth c2) (videoHeight c2) [path])
                    (videoFrame c2)
    /\ heightMap (app (snd result))
       = Some (make_heightmap (videoWidth c2) (videoHeight c2)
                              (cv_pixels (canvas (snd result)))).
Proof.
  intros Hd Hjaw Hw Hh result.
  destruct (head_path_defined (box d) (jawOutline d) Hjaw) as [path Hpath].
  exists path. split; [exact Hpath|].
  assert (H : result
              = (Published,
                 resumed_world rasterize toDataURL path
                   (capture_begin c2 (capture_begin c1 w)))).
  { apply resumeCapture_published. exists d, path.
    repeat split; cbn; auto. }
  rewrite H. cbn. repeat split.
Qed.

End CaptureOutcomes.

(** ** Sessions *)

Section Sessions.

Variable rasterize : nat -> nat -> list (list PathCmd) -> list Z.
Variable toDataURL : Canvas -> string.

(** What every event keeps, every sequence of events keeps. *)
Lemma run_invariant (P : World -> Prop) (events : list Event) (w : World) :
  (forall e w, P w -> P (handle rasterize toDataURL e w)) ->
  P w -> P (run rasterize toDataURL events w).
Proof.
  intros Hstep. revert w. unfold run.
  induction events as [|e events IH]; intros w Hw; simpl; [exact Hw|].
  apply IH, Hstep, Hw.
Qed.

(** The effect that loads the models is the model event of [handle]. *)
Lemma loadModels_as_event (a b : bool) (w : World) :
  with_app (loadModels a b) w
  = handle rasterize toDataURL
           (if a && b then ModelsLoaded else ModelsFailed) w.
Proof. destruct a, b; reflexivity. Qed.

Lemma handle_modelsLoaded (e : Event) (w : World) :
  modelsLoaded (app (handle rasterize toDataURL e w))
  = match e with
    | ModelsLoaded => true
    | _ => modelsLoaded (app w)
    end.
Proof.
  destruct e as [| | |c]; try reflexivity.
  apply (captureImage_app rasterize toDataURL c w).
Qed.

(** X13: once the models are loaded they stay loaded, whatever events
    follow. *)
Theorem ready_is_permanent (events : list Event) (w : World) :
  modelsLoaded (app w) = true ->
  modelsLoaded (app (run rasterize toDataURL events w)) = true.
Proof.
  intros Hw.
  apply (run_invariant (fun w => modelsLoaded (app w) = true)); [|exact Hw].
  intros e w0 H0. rewrite handle_modelsLoaded. destruct e; auto.
Qed.

(** X14: while the models are not loaded, no sequence of clicks and
    failures publishes anything: the height field and the image stay as
    they were. *)
Theorem nothing_published_until_ready (events : list Event) (w : World) :
  modelsLoaded (app w) = false ->
  Forall (fun e => e <> ModelsLoaded) events ->
  let w' := run rasterize toDataURL events w in
  modelsLoaded (app w') = false
  /\ heightMap (app w') = heightMap (app w)
  /\ imageData (app w') = imageData (app w).
Proof.
  intros Hw Hall. revert w Hw. unfold run.
  induction Hall as [|e events He _ IH]; intros w Hw; simpl; [auto|].
  assert (Hstep : modelsLoaded (app (handle rasterize toDataURL e w)) = false
                  /\ heightMap (app (handle rasterize toDataURL e w))
                     = heightMap (app w)
                  /\ imageData (app (handle rasterize toDataURL e w))
                     = imageData (app w)).
  { destruct e as [| | |c]; [congruence | auto | auto |].
    simpl. destruct (captureImage_app rasterize toDataURL c w) as [Hsame Hkeep].
    destruct (Hkeep Hw) as [Hh Hi]. rewrite Hsame. auto. }
  destruct Hstep as (Hl & Hh & Hi).
  destruct (IH _ Hl) as (Hl' & Hh' & Hi').
  rewrite Hl', Hh', Hi'. auto.
Qed.

(** An event leaves the height field and the image alone, or is a
    publishing capture. *)
Lemma handle_published_or_kept (e : Event) (w : World) :
  (heightMap (app (handle rasterize toDataURL e w)) = heightMap (app w)
   /\ imageData (app (handle rasterize toDataURL e w)) = imageData (app w))
  \/ exists c path,
       e = CaptureClicked c
       /\ handle rasterize toDataURL e w
          = published_world rasterize toDataURL c path w.
Proof.
  destruct e as [| | |c]; try (left; split; reflexivity).
  simpl.
  destruct (captureImage_cases rasterize toDataURL c w)
    as [H|[[_ H]|[(_ & _ & H & _)|[(_ & _ & H & _)|(d & path & _ & _ & _ & H)]]]];
    try (left; rewrite H; cbn; auto; fail).
  right. exists c, path. rewrite H. auto.
Qed.

(** X15: in every world the application reaches, the height field and the
    image are both set or both unset. *)
Theorem published_together (w : World) :
  reachable rasterize toDataURL w ->
  (heightMap (app w) = None <-> imageData (app w) = None).
Proof.
  intros (w0 & events & Hinit & ->).
  apply (run_invariant
           (fun w => heightMap (app w) = None <-> imageData (app w) = None)).
  - intros e w1 H1.
    destruct (handle_published_or_kept e w1) as [[-> ->]|(c & path & _ & ->)];
      [exact H1|].
    cbn. split; discriminate.
  - rewrite Hinit. cbn. split; reflexivity.
Qed.

(** X16: in every world the application reaches, every entry of the height
    field on display is [k / 255] for a byte [k], hence between 0 and 1,
    also after later captures have failed. *)
Theorem reachable_heights_in_range (w : World) (hm : list number)
    (p : nat) (v : number) :
  reachable rasterize toDataURL w ->
  heightMap (app w) = Some hm ->
  hm !! p = Some v ->
  exists (k : Z) (q : Q),
    v = Fin q /\ (q == inject_Z k / 255)%Q /\ (0 <= k <= 255)%Z
    /\ (0 <= q <= 1)%Q.
Proof.
  intros (w0 & events & Hinit & ->). revert hm p v.
  apply (run_invariant
           (fun w => forall hm p v,
              heightMap (app w) = Some hm -> hm !! p = Some v ->
              exists (k : Z) (q : Q),
                v = Fin q /\ (q == inject_Z k / 255)%Q /\ (0 <= k <= 255)%Z
                /\ (0 <= q <= 1)%Q)).
  - intros e w1 H1 hm p v.
    destruct (handle_published_or_kept e w1) as [[-> _]|(c & path & _ & ->)];
      [apply H1|].
    unfold published_world, setError, setImageData, setHeightMap.
    cbn [app heightMap cv_pixels]. intros Hhm Hp.
    assert (E : make_heightmap (videoWidth c) (videoHeight c)
                  (apply_mask (rasterize (videoWidth c) (videoHeight c) [path])
                              (videoFrame c)) = hm) by congruence.
    rewrite <- E in Hp. apply masked_height_entry in Hp.
    destruct Hp as (k & Hk & q & -> & Hq).
    exists k, q. repeat split; try assumption; try lia;
      rewrite Hq; apply byte_height_range, Hk.
  - rewrite Hinit. cbn. discriminate.
Qed.

(** X17: [loadModels] sets the loaded flag exactly when both models load.
    After a failed load the slot holds the models-failed message and a
    click replaces it with the still-loading message; after a successful
    load the slot is as it was and a click is never answered with
    still-loading. *)
Theorem load_then_capture (a b : bool) (c : Capture) (w : World) :
  refs_attached c = true ->
  modelsLoaded (app w) = false ->
  let w1 := with_app (loadModels a b) w in
  let result := captureImage rasterize toDataURL c w1 in
  modelsLoaded (app w1) = a && b
  /\ (a && b = false ->
      error (app w1) = Some msg_models_failed
      /\ fst result = StillLoading
      /\ error (app (snd result)) = Some msg_still_loading)
  /\ (a && b = true ->
      error (app w1) = error (app w) /\ fst result <> StillLoading).
Proof.
  intros Hr Hl w1 result. unfold result, w1, captureImage.
  rewrite Hr. cbn [negb].
  destruct a, b; cbn; rewrite ?Hl; cbn;
    (split; [reflexivity|]); (split; [intros H|intros H]);
    try discriminate; try (repeat split; reflexivity).
  split; [reflexivity|].
  destruct (contexts_available c); cbn; [|discriminate].
  destruct (capture_body _ _ _ _) as [[| |] w2]; discriminate.
Qed.

End Sessions.

(** ** The vertex loop on any height field *)

(** X19: the vertex loop writes third coordinates only: the x and y of
    every vertex and the length of the position array are kept. *)
Theorem render_keeps_xy (heightMap : list number) (width : nat)
    (vertices vertices' : list number) (k : nat) :
  k mod 3 <> 2 ->
  HeightMapMesh_effect heightMap width (Some vertices) = Some vertices' ->
  vertices' !! k = vertices !! k /\ length vertices' = length vertices.
Proof.
  intros Hk H. unfold HeightMapMesh_effect in H.
  assert (E : for_upto (length vertices) 3 (update_vertex heightMap width)
                       vertices = vertices') by congruence.
  rewrite <- E. split; [|apply vertex_loop_length].
  rewrite vertex_loop_lookup. unfold updated_entry.
  destruct (vertices !! k); [|reflexivity].
  destruct (Nat.eqb_spec (k mod 3) 2); [contradiction | reflexivity].
Qed.

(** X20: running the effect for a new height field after an old one gives
    what the new one alone gives: no depth of the old field survives. *)
Theorem render_overwrites (hm1 hm2 : list number) (width1 width2 : nat)
    (geometry : option (list number)) :
  HeightMapMesh_effect hm2 width2 (HeightMapMesh_effect hm1 width1 geometry)
  = HeightMapMesh_effect hm2 width2 geometry.
Proof.
  destruct geometry as [vertices|]; [|reflexivity].
  unfold HeightMapMesh_effect. f_equal. apply list_eq. intros k.
  rewrite (vertex_loop_lookup hm2 width2 vertices k).
  rewrite vertex_loop_lookup. unfold updated_entry at 1.
  rewrite vertex_loop_lookup. unfold updated_entry.
  destruct (vertices !! k); [|reflexivity].
  destruct (Nat.eqb_spec (k mod 3) 2); reflexivity.
Qed.

Section CaptureThenRender.

Variable rasterize : nat -> nat -> list (list PathCmd) -> list Z.
Variable toDataURL : Canvas -> string.

(** X22: capture and render composed: after a publishing capture, the
    effect run with the canvas width gives the vertex at (row, col) the
    depth [2 * red / 255], where [red] is the red byte of pixel (row, col)
    of the masked image. *)
Theorem capture_then_render (c : Capture) (w w' : World)
    (vertices : list number) (row col : nat) :
  captureImage rasterize toDataURL c w = (Published, w') ->
  length (videoFrame c) = 4 * (videoWidth c * videoHeight c) ->
  row < videoHeight c -> col < videoWidth c ->
  3 * (row * videoWidth c + col) + 2 < length vertices ->
  exists hm vertices' red depth,
    heightMap (app w') = Some hm
    /\ HeightMapMesh_effect hm (cv_width (canvas w')) (Some vertices)
       = Some vertices'
    /\ cv_pixels (canvas w') !! (4 * (row * videoWidth c + col)) = Some red
    /\ (0 <= red <= 255)%Z
    /\ vertices' !! (3 * (row * videoWidth c + col) + 2) = Some depth
    /\ num_eq depth (Fin (inject_Z red / 255 * 2)).
Proof.
  intros Hpub Hlen Hrow Hcol Hv.
  set (p := row * videoWidth c + col) in *.
  assert (Hp : p < videoWidth c * videoHeight c) by (unfold p; nia).
  destruct (published_pixel rasterize toDataURL c w w' p Hpub Hp ltac:(lia))
    as (Hred & _ & _ & hm & Hhm & Hq).
  destruct (published_facts rasterize toDataURL c w w' Hpub) as (Hw & _).
  set (red := if mask_is_white (head_mask rasterize w') (4 * p)
              then ToUint8Clamp (average (videoFrame c) (4 * p)) else 0%Z)
    in *.
  exists hm.
  exists (for_upto (length vertices) 3
            (update_vertex hm (cv_width (canvas w'))) vertices).
  exists red, (vertex_depth hm (cv_width (canvas w')) (3 * p)).
  split; [exact Hhm|]. split; [reflexivity|]. split; [exact Hred|]. split.
  { unfold red. destruct (mask_is_white _ _);
      [apply ToUint8Clamp_range | lia]. }
  split.
  - rewrite vertex_loop_lookup. unfold updated_entry.
    destruct (lookup_lt_is_Some_2 vertices (3 * p + 2) Hv) as [old ->].
    destruct (Nat.eqb_spec ((3 * p + 2) mod 3) 2); [|lia].
    replace (3 * ((3 * p + 2) / 3)) with (3 * p) by lia. reflexivity.
  - pose proof (vertex_depth_cases hm (cv_width (canvas w')) (3 * p)) as H.
    unfold height_lookup in H. rewrite Hw in H. unfold p in H at 1.
    rewrite height_index_grid in H by exact Hcol.
    fold p in H. rewrite Hq in H. rewrite Hw. exact H.
Qed.

End CaptureThenRender.


(** ** The further properties on the sample inputs *)

(** The alpha byte of the second pixel of the sample frame. *)
Lemma masking_keeps_alpha_witness :
  apply_mask sample_full_mask (videoFrame (sample_capture sample_found)) !! 7
  = videoFrame (sample_capture sample_found) !! 7
  /\ length (apply_mask sample_full_mask
                        (videoFrame (sample_capture sample_found)))
     = length (videoFrame (sample_capture sample_found)).
Proof.
  apply (masking_keeps_alpha sample_full_mask
           (videoFrame (sample_capture sample_found)) 7).
  reflexivity.
Defined.

(** The second pixel of the sample frame, (200, 100, 50). *)
Lemma masked_pixels_are_grey_witness :
  exists v : Z,
    (0 <= v <= 255)%Z
    /\ apply_mask sample_full_mask (videoFrame (sample_capture sample_found))
         !! (4 * 1) = Some v
    /\ apply_mask sample_full_mask (videoFrame (sample_capture sample_found))
         !! (4 * 1 + 1) = Some v
    /\ apply_mask sample_full_mask (videoFrame (sample_capture sample_found))
         !! (4 * 1 + 2) = Some v.
Proof.
  apply (masked_pixels_are_grey sample_full_mask
           (videoFrame (sample_capture sample_found)) 1).
  simpl. lia.
Defined.

(** The sample frame under an empty mask. *)
Lemma dark_mask_gives_flat_field_witness :
  num_eq (Fin (0 # 255)) (Fin 0)
  /\ forall k b, k mod 4 <> 3 ->
       apply_mask [] (videoFrame (sample_capture sample_found)) !! k = Some b ->
       b = 0%Z.
Proof.
  apply (dark_mask_gives_flat_field 2 1 []
           (videoFrame (sample_capture sample_found)) 0 (Fin (0 # 255))).
  - intros i. rewrite lookup_nil. discriminate.
  - reflexivity.
Defined.

(** The two pixels of the sample frame: sums 61 and 350. *)
Lemma brighter_pixel_is_not_lower_witness :
  exists v1 v2 : Z,
    apply_mask sample_full_mask (videoFrame (sample_capture sample_found))
      !! (4 * 0) = Some v1
    /\ apply_mask sample_full_mask (videoFrame (sample_capture sample_found))
         !! (4 * 1) = Some v2
    /\ (v1 <= v2)%Z
    /\ forall width height h1 h2,
         make_heightmap width height
           (apply_mask sample_full_mask
                       (videoFrame (sample_capture sample_found))) !! 0
         = Some (Fin h1) ->
         make_heightmap width height
           (apply_mask sample_full_mask
                       (videoFrame (sample_capture sample_found))) !! 1
         = Some (Fin h2) ->
         (h1 <= h2)%Q.
Proof.
  apply (brighter_pixel_is_not_lower sample_full_mask
           (videoFrame (sample_capture sample_found)) 0 1
           10 20 31 200 100 50);
    try reflexivity; lia.
Defined.

(** A detector that throws on the sample frame. *)
Lemma failed_capture_publishes_nothing_witness :
  let result := captureImage sample_rasterize sample_toDataURL
                             (sample_capture DetectThrows) sample_ready in
  heightMap (app (snd result)) = heightMap (app sample_ready)
  /\ imageData (app (snd result)) = imageData (app sample_ready)
  /\ modelsLoaded (app (snd result)) = modelsLoaded (app sample_ready).
Proof.
  apply (failed_capture_publishes_nothing sample_rasterize sample_toDataURL
           (sample_capture DetectThrows) sample_ready).
  vm_compute. discriminate.
Defined.

(** No face on the sample frame. *)
Lemma error_slot_tells_outcome_witness :
  let result := captureImage sample_rasterize sample_toDataURL
                             (sample_capture DetectUndefined) sample_ready in
  (error (app (snd result)) = None <-> fst result = Published)
  /\ (error (app (snd result)) = Some msg_still_loading
      <-> fst result = StillLoading)
  /\ (error (app (snd result)) = Some msg_no_face
      <-> fst result = NoFaceDetected)
  /\ (error (app (snd result)) = Some msg_capture_error
      <-> fst result = CaptureProcessingError).
Proof.
  apply (error_slot_tells_outcome sample_rasterize sample_toDataURL
           (sample_capture DetectUndefined) sample_ready).
  vm_compute. discriminate.
Defined.

(** The second half of the sample capture on the drawn sample frame, once
    with the state of a first visit and once with the state an earlier
    capture has published. *)
Lemma capture_reads_only_the_canvas_witness :
  exists w2',
    resumeCapture sample_rasterize sample_toDataURL
                  (sample_capture sample_found)
                  (capture_begin (sample_capture sample_found)
                                 sample_published)
    = (Published, w2')
    /\ heightMap (app w2') = heightMap (app sample_published)
    /\ imageData (app w2') = imageData (app sample_published)
    /\ error (app w2') = None /\ error (app sample_published) = None
    /\ canvas w2' = canvas sample_published
    /\ faceCanvas w2' = faceCanvas sample_published.
Proof.
  apply (capture_reads_only_the_canvas sample_rasterize sample_toDataURL
           (sample_capture sample_found)
           (capture_begin (sample_capture sample_found) sample_ready)
           (capture_begin (sample_capture sample_found) sample_published)
           sample_published).
  - vm_compute. reflexivity.
  - reflexivity.
  - reflexivity.
  - reflexivity.
Defined.



(** A failed load and a failing capture after the models have loaded. *)
Lemma ready_is_permanent_witness :
  modelsLoaded
    (app (run sample_rasterize sample_toDataURL
              [ModelsFailed; CaptureClicked (sample_capture DetectThrows)]
              sample_ready)) = true.
Proof.
  apply (ready_is_permanent sample_rasterize sample_toDataURL
           [ModelsFailed; CaptureClicked (sample_capture DetectThrows)]
           sample_ready).
  reflexivity.
Defined.

(** Clicks and failures before the models have loaded. *)
Lemma nothing_published_until_ready_witness :
  let w' := run sample_rasterize sample_toDataURL
                [CaptureClicked (sample_capture sample_found); ModelsFailed;
                 CameraFailed; CaptureClicked (sample_capture sample_found)]
                sample_loading in
  modelsLoaded (app w') = false
  /\ heightMap (app w') = heightMap (app sample_loading)
  /\ imageData (app w') = imageData (app sample_loading).
Proof.
  apply (nothing_published_until_ready sample_rasterize sample_toDataURL
           [CaptureClicked (sample_capture sample_found); ModelsFailed;
            CameraFailed; CaptureClicked (sample_capture sample_found)]
           sample_loading).
  - reflexivity.
  - repeat constructor; discriminate.
Defined.

Lemma sample_session_reachable :
  reachable sample_rasterize sample_toDataURL sample_session.
Proof.
  exists sample_loading,
    [ModelsLoaded; CaptureClicked (sample_capture sample_found)].
  split; reflexivity.
Qed.

(** The sample session has both. *)
Lemma published_together_witness :
  heightMap (app sample_session) = None
  <-> imageData (app sample_session) = None.
Proof.
  apply (published_together sample_rasterize sample_toDataURL sample_session).
  exact sample_session_reachable.
Defined.

(** The first entry of the height field of the sample session. *)
Lemma reachable_heights_in_range_witness :
  exists (k : Z) (q : Q),
    Fin (20 # 255) = Fin q /\ (q == inject_Z k / 255)%Q /\ (0 <= k <= 255)%Z
    /\ (0 <= q <= 1)%Q.
Proof.
  apply (reachable_heights_in_range sample_rasterize sample_toDataURL
           sample_session [Fin (20 # 255); Fin (0 # 255)] 0 (Fin (20 # 255))).
  - exact sample_session_reachable.
  - vm_compute. reflexivity.
  - reflexivity.
Defined.

(** The detector model loads, the landmark model does not. *)
Lemma load_then_capture_witness :
  let w1 := with_app (loadModels true false) sample_loading in
  let result := captureImage sample_rasterize sample_toDataURL
                             (sample_capture sample_found) w1 in
  error (app w1) = Some msg_models_failed
  /\ fst result = StillLoading
  /\ error (app (snd result)) = Some msg_still_loading.
Proof.
  intros w1 result.
  exact (proj1 (proj2 (load_then_capture sample_rasterize sample_toDataURL
                         true false (sample_capture sample_found)
                         sample_loading eq_refl eq_refl))
               eq_refl).
Defined.

(** The y coordinate of the second vertex of the sample grid. *)
Lemma render_keeps_xy_witness :
  [Fin (-5); Fin 5; Fin ((1 # 2) * 2); Fin 5; Fin 5; Fin 0;
   Fin (-5); Fin (-5); Fin (1 * 2); Fin 5; Fin (-5); Fin 0] !! 4
  = sample_vertices !! 4
  /\ length [Fin (-5); Fin 5; Fin ((1 # 2) * 2); Fin 5; Fin 5; Fin 0;
             Fin (-5); Fin (-5); Fin (1 * 2); Fin 5; Fin (-5); Fin 0]
     = length sample_vertices.
Proof.
  apply (render_keeps_xy sample_heights 2 sample_vertices
           [Fin (-5); Fin 5; Fin ((1 # 2) * 2); Fin 5; Fin 5; Fin 0;
            Fin (-5); Fin (-5); Fin (1 * 2); Fin 5; Fin (-5); Fin 0] 4).
  - simpl. lia.
  - reflexivity.
Defined.

(** The sample capture rendered on a grid of 2 x 1 vertices. *)
Lemma capture_then_render_witness :
  exists hm vertices' red depth,
    heightMap (app sample_published) = Some hm
    /\ HeightMapMesh_effect hm (cv_width (canvas sample_published))
         (Some (take 6 sample_vertices)) = Some vertices'
    /\ cv_pixels (canvas sample_published)
         !! (4 * (0 * videoWidth (sample_capture sample_found) + 0))
       = Some red
    /\ (0 <= red <= 255)%Z
    /\ vertices' !! (3 * (0 * videoWidth (sample_capture sample_found) + 0) + 2)
       = Some depth
    /\ num_eq depth (Fin (inject_Z red / 255 * 2)).
Proof.
  apply (capture_then_render sample_rasterize sample_toDataURL
           (sample_capture sample_found) sample_ready sample_published
           (take 6 sample_vertices) 0 0).
  - vm_compute. reflexivity.
  - reflexivity.
  - simpl. lia.
  - simpl. lia.
  - simpl. lia.
Defined.

(** The sample capture is pending when a click on a video of one grey pixel
    begins: it publishes one height, that of the grey pixel. *)
Lemma pending_capture_reads_later_frame_witness :
  let result := resumeCapture sample_rasterize sample_toDataURL
                  (sample_capture sample_found)
                  (capture_begin sample_later_capture
                     (capture_begin (sample_capture sample_found)
                                    sample_ready)) in
  exists path,
    head_path (box (sample_detection sample_jaw))
              (jawOutline (sample_detection sample_jaw)) = Value path
    /\ fst result = Published
    /\ cv_width (canvas (snd result)) = videoWidth sample_later_capture
    /\ cv_height (canvas (snd result)) = videoHeight sample_later_capture
    /\ cv_pixels (canvas (snd result))
       = apply_mask
           (sample_rasterize (videoWidth sample_later_capture)
                             (videoHeight sample_later_capture) [path])
           (videoFrame sample_later_capture)
    /\ heightMap (app (snd result))
       = Some (make_heightmap (videoWidth sample_later_capture)
                              (videoHeight sample_later_capture)
                              (cv_pixels (canvas (snd result)))).
Proof.
  apply (pending_capture_reads_later_frame sample_rasterize sample_toDataURL
           (sample_capture sample_found) sample_later_capture sample_ready
           (sample_detection sample_jaw)).
  - reflexivity.
  - discriminate.
  - discriminate.
  - discriminate.
Defined.

(** What that pending capture publishes: one height, that of the grey
    pixel of the later click. *)
Example pending_capture_publishes_later_pixel :
  heightMap
    (app (snd (resumeCapture sample_rasterize sample_toDataURL
                 (sample_capture sample_found)
                 (capture_begin sample_later_capture
                    (capture_begin (sample_capture sample_found)
                                   sample_ready)))))
  = Some [Fin (90 # 255)].
Proof. vm_compute. reflexivity. Qed.
